(** * PhishGuard URL risk scoring: the predictor of [ml_predictor.py]

    A shallow embedding of [PhishingPredictor] (feature extraction, trust
    matching, the rule scorer, the model scorer and the orchestrator) and
    the properties of its specification.

    Modelling conventions.
    - A Python [str] is a Rocq [string]; each [ascii] stands for one code
      point in the range 0..255, so [len], [count], [in] and slicing work
      per character as in Python.  Code points above 255 are outside the
      model.
    - A Python [int] is a [Z].  A Python [float] is the rational it
      denotes, a [Q]: comparisons and the integer-valued features are
      exact; rounding, infinities and NaN are outside the model.  The
      decision bands of the model scorer, whose results depend on the
      rounding, are also given over a floating-point arithmetic that is
      a parameter ([FloatArith], [predict_with_xgboost_float]).
    - A raised exception is the [Raise] outcome of the [result] type;
      [try]/[except Exception] is [try_except].
    - A [dict] with string keys is a [gmap string _].
    - Calls to [logger] only observe and are left out.
    - [urllib.parse.urlparse] is a parameter of the predictor, so that the
      general theorems hold for every release of the parser; the examples
      run on [Urllib.urlparse], a model of CPython's. *)

From Stdlib Require Import ZArith QArith Qround Lqa String Ascii List Bool Lia.
From Stdlib Require SpecFloat.
From stdpp Require Import base option gmap strings.

Local Open Scope string_scope.
Local Open Scope Z_scope.

(** ** Exceptions *)

Inductive exn : Type :=
  | ValueError
  | KeyError
  | ZeroDivisionError
  | ImportError
  | AttributeError
  | InferenceError.

Inductive result (A : Type) : Type :=
  | Ok (a : A)
  | Raise (e : exn).

Arguments Ok {A} a.
Arguments Raise {A} e.

#[global] Instance result_ret : MRet result := fun A a => Ok a.
#[global] Instance result_bind : MBind result := fun A B f m =>
  match m with
  | Ok a => f a
  | Raise e => Raise e
  end.

(** [try: body except Exception as e: handler(e)] *)
Definition try_except {A} (body : result A) (handler : exn -> result A) : result A :=
  match body with
  | Ok a => Ok a
  | Raise e => handler e
  end.

Definition raises {A} (r : result A) : bool :=
  match r with
  | Ok _ => false
  | Raise _ => true
  end.

(** [[f(x) for x in l]] where [f] may raise: the first exception wins. *)
Fixpoint mapM {A B} (f : A -> result B) (l : list A) : result (list B) :=
  match l with
  | [] => Ok []
  | x :: l' => y ← f x; ys ← mapM f l'; Ok (y :: ys)
  end.

(** ** Python string operations *)

Module PyStr.

Definition ord (c : ascii) : N := N_of_ascii c.

Definition in_range (lo hi : N) (c : ascii) : bool :=
  ((lo <=? ord c) && (ord c <=? hi))%N.

Definition is_ascii_upper (c : ascii) : bool := in_range 65 90 c.
Definition is_ascii_lower (c : ascii) : bool := in_range 97 122 c.
Definition is_ascii_digit (c : ascii) : bool := in_range 48 57 c.
Definition is_ascii_alpha (c : ascii) : bool := is_ascii_upper c || is_ascii_lower c.

(** [c.lower()]: A-Z, and the upper-case letters U+00C0..U+00DE other
    than the multiplication sign U+00D7, move 32 places up. *)
Definition lower_char (c : ascii) : ascii :=
  if is_ascii_upper c || (in_range 192 222 c && negb (ord c =? 215)%N)
  then ascii_of_N (ord c + 32)
  else c.

Fixpoint lower (s : string) : string :=
  match s with
  | "" => ""
  | String c s' => String (lower_char c) (lower s')
  end.

(** [len(s)] *)
Definition len (s : string) : Z := Z.of_nat (String.length s).

(** [s.count(c)] for a one-character [c] *)
Fixpoint count (c : ascii) (s : string) : Z :=
  match s with
  | "" => 0
  | String d s' => (if Ascii.eqb d c then 1 else 0) + count c s'
  end.

(** [s.startswith(p)] *)
Fixpoint startswith (s p : string) : bool :=
  match p, s with
  | "", _ => true
  | String a p', String b s' => Ascii.eqb a b && startswith s' p'
  | String _ _, "" => false
  end.

(** [sub in s] *)
Fixpoint contains (s sub : string) : bool :=
  startswith s sub ||
  match s with
  | "" => false
  | String _ s' => contains s' sub
  end.

(** [s.endswith(p)] *)
Fixpoint endswith (s p : string) : bool :=
  String.eqb s p ||
  match s with
  | "" => false
  | String _ s' => endswith s' p
  end.

(** [s[n:]] *)
Fixpoint drop (n : nat) (s : string) : string :=
  match n, s with
  | O, _ => s
  | S n', String _ s' => drop n' s'
  | S _, "" => ""
  end.

(** [s[:n]] *)
Fixpoint take (n : nat) (s : string) : string :=
  match n, s with
  | S n', String c s' => String c (take n' s')
  | _, _ => ""
  end.

(** the longest prefix none of whose characters satisfies [p] *)
Fixpoint take_until (p : ascii -> bool) (s : string) : string :=
  match s with
  | "" => ""
  | String c s' => if p c then "" else String c (take_until p s')
  end.

(** [s.split(c)[0]] *)
Definition before (c : ascii) (s : string) : string := take_until (Ascii.eqb c) s.

(** [s.find(c)], [None] for -1 *)
Fixpoint find (c : ascii) (s : string) : option nat :=
  match s with
  | "" => None
  | String d s' => if Ascii.eqb d c then Some O else S <$> find c s'
  end.

(** [c in s] for a one-character [c] *)
Definition has_char (c : ascii) (s : string) : bool := (0 <? count c s).

(** [s.lstrip(chars)], the characters given as a predicate *)
Fixpoint lstrip (p : ascii -> bool) (s : string) : string :=
  match s with
  | "" => ""
  | String c s' => if p c then lstrip p s' else s
  end.

(** all occurrences of the characters satisfying [p] removed *)
Fixpoint remove (p : ascii -> bool) (s : string) : string :=
  match s with
  | "" => ""
  | String c s' => if p c then remove p s' else String c (remove p s')
  end.

Fixpoint forallb (p : ascii -> bool) (s : string) : bool :=
  match s with
  | "" => true
  | String c s' => p c && forallb p s'
  end.

Fixpoint existsb (p : ascii -> bool) (s : string) : bool :=
  match s with
  | "" => false
  | String c s' => p c || existsb p s'
  end.

End PyStr.

(** ** [urllib.parse.urlparse]

    The predictor reads two components of the parse result, [scheme] and
    [netloc]; the record keeps those. *)

Record ParseResult : Type := mkParseResult {
  scheme : string;
  netloc : string
}.

(** The standard library's [urlsplit], as far as [scheme] and [netloc] go,
    after CPython 3.11's [urllib/parse.py].  Two of its checks are not
    modelled.  [_checknetloc] raises only when NFKC normalisation of the
    netloc brings in one of [/?#@:], which no code point below 256 does.
    The validation of a bracketed IP literal, which goes through the
    [ipaddress] module and exists from release 3.11.4 on, is left out: a
    netloc holding both brackets is accepted, as earlier releases do. *)
Module Urllib.
Import PyStr.

Definition is_c0_control_or_space (c : ascii) : bool := (ord c <=? 32)%N.

(** ['\t'], ['\r'], ['\n'] *)
Definition is_unsafe_url_byte (c : ascii) : bool :=
  (ord c =? 9)%N || (ord c =? 13)%N || (ord c =? 10)%N.

Definition is_scheme_char (c : ascii) : bool :=
  is_ascii_lower c || is_ascii_upper c || is_ascii_digit c ||
  Ascii.eqb c "+" || Ascii.eqb c "-" || Ascii.eqb c ".".

Definition is_netloc_delim (c : ascii) : bool :=
  Ascii.eqb c "/" || Ascii.eqb c "?" || Ascii.eqb c "#".

(** [_splitnetloc(url, 2)], first component *)
Definition splitnetloc (url : string) : string :=
  take_until is_netloc_delim (drop 2 url).

Definition first_is_ascii_alpha (url : string) : bool :=
  match url with
  | "" => false
  | String c _ => is_ascii_alpha c
  end.

(** the scheme found, and the rest of the URL *)
Definition split_scheme (url : string) : string * string :=
  match find ":" url with
  | Some i =>
      if (0 <? i)%nat && first_is_ascii_alpha url && forallb is_scheme_char (take i url)
      then (lower (take i url), drop (S i) url)
      else ("", url)
  | None => ("", url)
  end.

Definition urlsplit (url : string) : result ParseResult :=
  let url := lstrip is_c0_control_or_space url in
  let url := remove is_unsafe_url_byte url in
  let '(scheme, url) := split_scheme url in
  if startswith url "//" then
    let netloc := splitnetloc url in
    if (has_char "[" netloc && negb (has_char "]" netloc)) ||
       (has_char "]" netloc && negb (has_char "[" netloc))
    then Raise ValueError
    else Ok (mkParseResult scheme netloc)
  else Ok (mkParseResult scheme "").

Definition urlparse (url : string) : result ParseResult := urlsplit url.

End Urllib.

(** ** Regular expressions

    The fragment of Python's [re] that the predictor's patterns use, with a
    backtracking matcher in continuation-passing style.  The matcher carries
    the character before the current position, which [\b] inspects. *)

Module Re.
Import PyStr.

Inductive regex : Type :=
  | Eps                                             (* the empty pattern *)
  | Chr (c : ascii)                                 (* one literal character *)
  | Cls (lo hi : ascii)                             (* [lo-hi] *)
  | Seq (r1 r2 : regex)                             (* r1 r2 *)
  | Rep (r : regex) (lo : nat) (hi : option nat)    (* r{lo,hi}; r+ is r{1,} *)
  | Dollar                                          (* $ *)
  | WordB.                                          (* \b *)

Arguments Rep r lo%_nat hi.

(** [r{lo,hi}] and [r+] *)
Definition between (r : regex) (lo hi : nat) : regex := Rep r lo (Some hi).
Definition plus (r : regex) : regex := Rep r 1 None.

Arguments between r (lo hi)%_nat.

(** the literal text [s] *)
Fixpoint lit (s : string) : regex :=
  match s with
  | "" => Eps
  | String c s' => Seq (Chr c) (lit s')
  end.

Fixpoint seqs (rs : list regex) : regex :=
  match rs with
  | [] => Eps
  | r :: rs' => Seq r (seqs rs')
  end.

(** [\w] on a [str] pattern: alphanumeric in the sense of [str.isalnum],
    or the underscore.  Below 256 these are the ASCII letters and digits,
    U+00AA, U+00B2, U+00B3, U+00B5, U+00B9, U+00BA, U+00BC..U+00BE and the
    letters U+00C0..U+00FF (all but U+00D7 and U+00F7). *)
Definition is_word (c : ascii) : bool :=
  is_ascii_alpha c || is_ascii_digit c || Ascii.eqb c "_" ||
  (ord c =? 170)%N || (ord c =? 178)%N || (ord c =? 179)%N || (ord c =? 181)%N ||
  (ord c =? 185)%N || (ord c =? 186)%N || in_range 188 190 c ||
  (in_range 192 255 c && negb (ord c =? 215)%N && negb (ord c =? 247)%N).

Definition word_before (prev : option ascii) : bool :=
  match prev with
  | Some c => is_word c
  | None => false
  end.

Definition word_after (s : string) : bool :=
  match s with
  | String c _ => is_word c
  | "" => false
  end.

(** [$] without MULTILINE: the end of the string, or just before a newline
    that ends the string *)
Definition at_dollar (s : string) : bool :=
  match s with
  | "" => true
  | String c "" => (ord c =? 10)%N
  | _ => false
  end.

(** [m r prev s k]: some way of matching [r] at the front of [s] leaves a
    rest that the continuation [k] accepts.  An unbounded repetition is
    tried at most as many times as characters remain. *)
Fixpoint m (r : regex) (prev : option ascii) (s : string)
    (k : option ascii -> string -> bool) : bool :=
  match r with
  | Eps => k prev s
  | Chr c =>
      match s with
      | String d s' => Ascii.eqb c d && k (Some d) s'
      | "" => false
      end
  | Cls lo hi =>
      match s with
      | String d s' => in_range (ord lo) (ord hi) d && k (Some d) s'
      | "" => false
      end
  | Seq r1 r2 => m r1 prev s (fun prev' s' => m r2 prev' s' k)
  | Rep r lo hi =>
      let extra :=
        match hi with
        | Some h => (h - lo)%nat
        | None => String.length s
        end in
      let optional :=
        fix optional (n : nat) (prev : option ascii) (s : string) : bool :=
          match n with
          | O => k prev s
          | S n' => m r prev s (fun prev' s' => optional n' prev' s') || k prev s
          end in
      (fix required (n : nat) (prev : option ascii) (s : string) : bool :=
         match n with
         | O => optional extra prev s
         | S n' => m r prev s (fun prev' s' => required n' prev' s')
         end) lo prev s
  | Dollar => at_dollar s && k prev s
  | WordB => xorb (word_before prev) (word_after s) && k prev s
  end.

Fixpoint search_from (r : regex) (prev : option ascii) (s : string) : bool :=
  m r prev s (fun _ _ => true) ||
  match s with
  | "" => false
  | String c s' => search_from r (Some c) s'
  end.

(** [re.search(r, s)] as a truth value *)
Definition search (r : regex) (s : string) : bool := search_from r None s.

End Re.

(** ** Python numbers *)

Module PyNum.

(** [float(n)] of an integer *)
Definition float (n : Z) : Q := inject_Z n.

(** [x > y] and [x >= y] *)
Definition Qgt_bool (x y : Q) : bool := negb (Qle_bool x y).
Definition Qge_bool (x y : Q) : bool := Qle_bool y x.

(** [max(a, b)]: the first argument stays unless the second is greater *)
Definition py_max (a b : Q) : Q := if Qgt_bool b a then b else a.

(** [a / b], which raises on a zero divisor *)
Definition py_div (a b : Q) : result Q :=
  if Qeq_bool b (float 0) then Raise ZeroDivisionError else Ok (a / b)%Q.

(** [int(x)]: the fraction is cut off, towards zero *)
Definition py_int (x : Q) : Z := Z.quot (Qnum x) (Z.pos (Qden x)).

End PyNum.

(** ** Module-level tables of [ml_predictor.py] *)

Definition suspicious_keywords : list string :=
  [ "login"; "secure"; "account"; "update"; "bank"; "paypal"; "verify";
    "confirm"; "signin"; "password"; "suspended"; "limited"; "expire";
    "urgent"; "immediate"; "click"; "here"; "now"; "free"; "winner" ].

(** A [set] in the source; the order of iteration only selects the text of
    the reason, never the verdict. *)
Definition TRUSTED_DOMAINS : list string :=
  [ "google.com"; "facebook.com"; "twitter.com"; "instagram.com"; "linkedin.com";
    "amazon.com"; "microsoft.com"; "apple.com"; "github.com"; "stackoverflow.com";
    "youtube.com"; "gmail.com"; "outlook.com"; "yahoo.com"; "reddit.com";
    "wikipedia.org"; "mozilla.org"; "github.io"; "cloudflare.com"; "netflix.com";
    "spotify.com"; "dropbox.com"; "adobe.com"; "salesforce.com"; "zoom.us";
    "discord.com"; "slack.com"; "twitch.tv"; "medium.com"; "wordpress.com" ].

(** Each pattern with its source text, which the reason quotes. *)
Definition TRUSTED_TLD_PATTERNS : list (string * Re.regex) :=
  let az := Re.Cls "a" "z" in
  [ ("\.edu$",            Re.seqs [Re.lit ".edu"; Re.Dollar]);
    ("\.edu\.[a-z]{2}$",  Re.seqs [Re.lit ".edu."; Re.between az 2 2; Re.Dollar]);
    ("\.ac\.[a-z]{2}$",   Re.seqs [Re.lit ".ac."; Re.between az 2 2; Re.Dollar]);
    ("\.univ-[a-z]+\.fr$", Re.seqs [Re.lit ".univ-"; Re.plus az; Re.lit ".fr"; Re.Dollar]);
    ("\.gov$",            Re.seqs [Re.lit ".gov"; Re.Dollar]);
    ("\.gov\.[a-z]{2}$",  Re.seqs [Re.lit ".gov."; Re.between az 2 2; Re.Dollar]);
    ("\.mil$",            Re.seqs [Re.lit ".mil"; Re.Dollar]);
    ("\.mil\.[a-z]{2}$",  Re.seqs [Re.lit ".mil."; Re.between az 2 2; Re.Dollar]);
    ("\.uthm\.edu\.my$",  Re.seqs [Re.lit ".uthm.edu.my"; Re.Dollar]);
    ("\.utm\.my$",        Re.seqs [Re.lit ".utm.my"; Re.Dollar]);
    ("\.upm\.edu\.my$",   Re.seqs [Re.lit ".upm.edu.my"; Re.Dollar]);
    ("\.um\.edu\.my$",    Re.seqs [Re.lit ".um.edu.my"; Re.Dollar]) ].

(** Also a [set] in the source. *)
Definition MALAYSIAN_EDU_DOMAINS : list string :=
  [ "uthm.edu.my"; "utm.my"; "upm.edu.my"; "um.edu.my";
    "usm.my"; "ukm.my"; "utp.edu.my"; "mmu.edu.my" ].

(** [self.feature_names] *)
Definition feature_names : list string :=
  [ "URL_Length"; "Special_Chars"; "Num_Subdomains"; "Suspicious_Keywords"; "Has_HTTPS" ].

(** [\b(?:[0-9]{1,3}\.){3}[0-9]{1,3}\b] *)
Definition ip_address_pattern : Re.regex :=
  let digit := Re.Cls "0" "9" in
  Re.seqs [ Re.WordB;
            Re.between (Re.Seq (Re.between digit 1 3) (Re.Chr ".")) 3 3;
            Re.between digit 1 3;
            Re.WordB ].

Inductive label : Type := Safe | Phishing.

(** the loaded [xgb.Booster]: its [predict] on one row of features gives
    the phishing probability, or raises *)
Definition Booster : Type := list Q -> result Q.

(** the attributes of a [PhishingPredictor] that prediction reads *)
Record PhishingPredictor : Type := mkPredictor {
  model : option Booster;
  model_loaded : bool
}.

(** ** Floating-point arithmetic

    [self.model.predict(dmatrix)[0]] is a [numpy.float32].  What the
    scorer does with it in lines 225 to 236 (two comparisons with a
    literal, a product with an integer literal, a difference from 1,
    [float] and [int]) is NumPy's arithmetic: every operation rounds, and
    the format of a result and the conversion of a literal depend on the
    NumPy release.  [FloatArith] names these operations and leaves their
    results open.  It fixes what Python fixes: [int] of a floating-point
    value that denotes a number is that number cut off toward zero, and
    [float] keeps the number denoted. *)
Record FloatArith : Type := mkFloatArith {
  (** the floating-point values *)
  fp : Type;
  (** the number that a value denotes, [None] for an infinity or a NaN *)
  fp_value : fp -> option Q;
  (** [x > c] for the literal [c] *)
  fp_gt : fp -> Q -> bool;
  (** [x * k] for the integer literal [k] *)
  fp_mul : fp -> Z -> fp;
  (** [k - x] for the integer literal [k] *)
  fp_rsub : Z -> fp -> fp;
  (** [float(x)] *)
  fp_float : fp -> fp;
  (** [int(x)] *)
  fp_int : fp -> result Z;
  fp_int_value : forall x q, fp_value x = Some q -> fp_int x = Ok (PyNum.py_int q);
  fp_float_value : forall x, fp_value (fp_float x) = fp_value x
}.

Arguments fp_value {A} x : rename.
Arguments fp_gt {A} x c : rename.
Arguments fp_mul {A} x k : rename.
Arguments fp_rsub {A} k x : rename.
Arguments fp_float {A} x : rename.
Arguments fp_int {A} x : rename.

(** the arithmetic without rounding, every value being the rational it
    denotes: the one in which [xgboost_verdict] is written *)
Definition exact_arith : FloatArith :=
  {| fp := Q;
     fp_value := Some;
     fp_gt := PyNum.Qgt_bool;
     fp_mul := fun x k => (x * PyNum.float k)%Q;
     fp_rsub := fun k x => (PyNum.float k - x)%Q;
     fp_float := fun x => x;
     fp_int := fun x => Ok (PyNum.py_int x);
     fp_int_value := fun x q (H : Some x = Some q) =>
       f_equal (fun o : option Q => Ok (PyNum.py_int (default x o))) H;
     fp_float_value := fun x => eq_refl |}.

(** the loaded booster answering in the arithmetic [A] *)
Definition FloatBooster (A : FloatArith) : Type := list Q -> result (fp A).

(** a returned confidence: a number written in the code or computed by
    the rule scorer, or a floating-point value computed from the
    probability *)
Inductive Confidence (A : FloatArith) : Type :=
  | Exact (c : Q)
  | Computed (x : fp A).

Arguments Exact {A} c.
Arguments Computed {A} x.

Definition confidence_value {A : FloatArith} (c : Confidence A) : option Q :=
  match c with
  | Exact c => Some c
  | Computed x => fp_value x
  end.

(** *** IEEE arithmetic

    Two arithmetics that NumPy applies to a [float32] scalar met with a
    Python literal, over the executable IEEE 754 operations of
    [SpecFloat] (round to nearest, ties to even).  From release 2 on the
    literal is converted to [float32] and the operation is a [float32]
    one: [binary32_arith].  Before, the scalar is widened and the
    operation is a [float64] one: [binary64_arith]. *)
Module IEEE.

Import SpecFloat.

Section Format.

(** the format of the operations: 24 and 128 for [float32], 53 and 1024
    for [float64] *)
Variables prec emax : Z.

(** a Python [int] as a floating-point value *)
Definition of_int (n : Z) : spec_float := binary_normalize prec emax n 0 false.

(** a value of another format converted to this one *)
Definition cast (x : spec_float) : spec_float :=
  match x with
  | S754_finite s m e => binary_round prec emax s m e
  | _ => x
  end.

(** a decimal literal of the source, here the fraction it is written as:
    a Python [float], that is the nearest [float64], converted to the
    format *)
Definition of_literal (c : Q) : spec_float :=
  cast (SFdiv 53 1024 (binary_normalize 53 1024 (Qnum c) 0 false)
                      (binary_normalize 53 1024 (Z.pos (Qden c)) 0 false)).

(** the number denoted *)
Definition value (x : spec_float) : option Q :=
  match x with
  | S754_zero _ => Some 0%Q
  | S754_finite s m e =>
      let magnitude :=
        match e with
        | Z.neg k => Z.pos m # Pos.shiftl 1 (N.pos k)
        | _ => inject_Z (Z.pos m * 2 ^ e)
        end in
      Some (if s then (- magnitude)%Q else magnitude)
  | S754_infinity _ | S754_nan => None
  end.

(** [int(x)]: ValueError for a NaN; for an infinity Python raises
    OverflowError, which [except Exception] catches alike *)
Definition to_int (x : spec_float) : result Z :=
  match value x with
  | Some q => Ok (PyNum.py_int q)
  | None => Raise ValueError
  end.

Definition arith : FloatArith :=
  {| fp := spec_float;
     fp_value := value;
     fp_gt := fun x c => SFltb (of_literal c) x;
     fp_mul := fun x k => SFmul prec emax x (of_int k);
     fp_rsub := fun k x => SFsub prec emax (of_int k) x;
     fp_float := fun x => x;
     fp_int := to_int;
     fp_int_value := fun x q (H : value x = Some q) =>
       @eq_ind_r (option Q) (Some q)
         (fun o => match o with
                   | Some q' => Ok (PyNum.py_int q')
                   | None => Raise ValueError
                   end = Ok (PyNum.py_int q)) eq_refl (value x) H;
     fp_float_value := fun x => eq_refl |}.

End Format.

(** the [float32] nearest to a fraction *)
Definition float32 (c : Q) : spec_float := of_literal 24 128 c.

End IEEE.

Definition binary32_arith : FloatArith := IEEE.arith 24 128.
Definition binary64_arith : FloatArith := IEEE.arith 53 1024.

(** ** The predictor

    The section is parametric in the two things the predictor takes from
    its runtime: [urlparse], which may raise, and whether [import xgboost]
    succeeds. *)

Section Predictor.
Import PyStr PyNum.

Variable urlparse : string -> result ParseResult.
Variable xgboost_installed : bool.

(** *** [_load_xgboost_model], called by [__init__]

    [path_exists] is [os.path.exists(self.model_path)]; [blank] is the
    fresh [xgb.Booster()], whose construction is taken to succeed and
    which is stored before [load_model] runs; [load_model] gives the
    booster once the file is read, or raises. *)
Definition load_xgboost_model (path_exists : bool) (blank : Booster)
    (load_model : result Booster) : PhishingPredictor :=
  if negb path_exists then mkPredictor None false
  else if negb xgboost_installed then mkPredictor None false
  else match load_model with
       | Ok booster => mkPredictor (Some booster) true
       | Raise _ => mkPredictor (Some blank) false
       end.

(** *** [extract_features] *)

(** [sum(url.count(c) for c in chars)] *)
Fixpoint sum_counts (chars url : string) : Z :=
  match chars with
  | "" => 0
  | String c chars' => count c url + sum_counts chars' url
  end.

(** [sum(1 for keyword in suspicious_keywords if keyword in url_lower)] *)
Definition count_keywords (url_lower : string) : Z :=
  Z.of_nat (List.length (List.filter (contains url_lower) suspicious_keywords)).

Definition zero_features : gmap string Q :=
  <["URL_Length" := float 0]> (
  <["Special_Chars" := float 0]> (
  <["Num_Subdomains" := float 0]> (
  <["Suspicious_Keywords" := float 0]> (
  <["Has_HTTPS" := float 0]> ∅)))).

Definition extract_features (url : string) : result (gmap string Q) :=
  try_except
    (parsed ← urlparse url;
     let url_length := len url in
     let special_chars := sum_counts "@/?=_-&%#" url in
     let num_subdomains :=
       if negb (String.eqb (netloc parsed) "")
       then Z.max 0 (count "." (netloc parsed) - 1)
       else 0 in
     let url_lower := lower url in
     let suspicious_count := count_keywords url_lower in
     let has_https := if String.eqb (scheme parsed) "https" then float 1 else float 0 in
     let features : gmap string Q :=
       <["URL_Length" := float url_length]> (
       <["Special_Chars" := float special_chars]> (
       <["Num_Subdomains" := float num_subdomains]> (
       <["Suspicious_Keywords" := float suspicious_count]> (
       <["Has_HTTPS" := has_https]> ∅)))) in
     Ok features)
    (fun _ => Ok zero_features).

(** *** [is_trusted_domain] *)

Definition prefixes_to_remove : list string :=
  [ "www."; "mail."; "webmail."; "m."; "mobile."; "app."; "api." ].

(** the loop that removes the first prefix the domain starts with *)
Fixpoint remove_prefix (prefixes : list string) (domain : string) : string :=
  match prefixes with
  | [] => domain
  | prefix :: prefixes' =>
      if startswith domain prefix
      then drop (String.length prefix) domain
      else remove_prefix prefixes' domain
  end.

(** the host as the checks see it: lower-cased, one prefix removed, cut at
    the first colon *)
Definition normalize_domain (netloc : string) : string :=
  let domain := lower netloc in
  let domain := remove_prefix prefixes_to_remove domain in
  before ":" domain.

(** [domain == trusted or domain.endswith('.' + trusted)] *)
Definition is_or_under (domain trusted : string) : bool :=
  String.eqb domain trusted || endswith domain ("." +:+ trusted).

Definition university_keywords : list string :=
  [ "university"; "univ"; "college"; "school"; "academy" ].

Definition suspicious_host_words : list string :=
  [ "login"; "secure"; "verify"; "update" ].

Definition is_trusted_domain (url : string) : result (bool * string) :=
  try_except
    (parsed ← urlparse url;
     let domain := normalize_domain (netloc parsed) in
     match List.find (is_or_under domain) TRUSTED_DOMAINS with
     | Some trusted => Ok (true, "Major trusted domain: " +:+ trusted)
     | None =>
     match List.find (is_or_under domain) MALAYSIAN_EDU_DOMAINS with
     | Some edu_domain => Ok (true, "Malaysian educational institution: " +:+ edu_domain)
     | None =>
     match List.find (fun pattern => Re.search (snd pattern) domain) TRUSTED_TLD_PATTERNS with
     | Some pattern => Ok (true, "Educational/Government domain pattern: " +:+ fst pattern)
     | None =>
     if endswith domain ".gov" || endswith domain ".mil" then Ok (true, "Government domain")
     else if endswith domain ".edu" then Ok (true, "Educational domain")
     else if contains domain ".ac." then Ok (true, "Academic domain")
     else if List.existsb (contains domain) university_keywords
             && negb (List.existsb (contains domain) suspicious_host_words)
          then Ok (true, "Educational-sounding domain")
     else Ok (false, "Not in trusted lists")
     end end end)
    (fun _ => Ok (false, "Error in domain check")).

(** *** [predict_with_rules] *)

(** [features.get(key, default)] *)
Definition get (features : gmap string Q) (key : string) (default : Q) : Q :=
  match features !! key with
  | Some v => v
  | None => default
  end.

Definition length_penalty (url_length : Q) : Z :=
  if Qgt_bool url_length (float 150) then 30
  else if Qgt_bool url_length (float 100) then 20
  else if Qgt_bool url_length (float 80) then 10
  else 0.

Definition special_chars_penalty (special_char_ratio special_chars : Q) : Z :=
  if Qgt_bool special_char_ratio (4 # 10) then 25
  else if Qgt_bool special_chars (float 20) then 20
  else if Qgt_bool special_chars (float 15) then 10
  else 0.

Definition keywords_penalty (suspicious_keywords : Q) : Z :=
  if Qge_bool suspicious_keywords (float 4) then 40
  else if Qge_bool suspicious_keywords (float 3) then 30
  else if Qge_bool suspicious_keywords (float 2) then 20
  else if Qge_bool suspicious_keywords (float 1) then 10
  else 0.

Definition https_penalty (has_https : Q) : Z :=
  if Qeq_bool has_https (float 0) then 20 else 0.

Definition subdomains_penalty (num_subdomains : Q) : Z :=
  if Qgt_bool num_subdomains (float 6) then 20
  else if Qgt_bool num_subdomains (float 4) then 10
  else 0.

Definition ip_address_penalty (url : string) : Z :=
  if Re.search ip_address_pattern url then 25 else 0.

Definition suspicious_tlds : list string :=
  [ ".tk"; ".ml"; ".ga"; ".cf"; ".click"; ".download" ].

Definition tld_penalty (url_lower : string) : Z :=
  if List.existsb (contains url_lower) suspicious_tlds then 15 else 0.

(** [any(ord(c) > 127 for c in url)] *)
Definition non_ascii_penalty (url : string) : Z :=
  if existsb (fun c => (127 <? ord c)%N) url then 15 else 0.

(** the final decision, from [risk_score = min(score, 100)] on *)
Definition rules_verdict (score : Z) : label * Q * Z :=
  let risk_score := Z.min score 100 in
  if 70 <=? risk_score then (Phishing, float (Z.min 95 risk_score), risk_score)
  else if 50 <=? risk_score then (Safe, float (Z.min 70 (100 - risk_score)), risk_score)
  else (Safe, float (Z.min 95 (100 - risk_score + 10)), risk_score).

(** the score accumulated below the trust check *)
Definition rules_score (features : gmap string Q) (url : string) : result Z :=
  let score := 0 in
  let url_length := get features "URL_Length" (float 0) in
  let special_chars := get features "Special_Chars" (float 0) in
  let suspicious_keywords := get features "Suspicious_Keywords" (float 0) in
  let has_https := get features "Has_HTTPS" (float 1) in
  let num_subdomains := get features "Num_Subdomains" (float 0) in
  let score := score + length_penalty url_length in
  special_char_ratio ← py_div special_chars (py_max url_length (float 1));
  let score := score + special_chars_penalty special_char_ratio special_chars in
  let score := score + keywords_penalty suspicious_keywords in
  let score := score + https_penalty has_https in
  let score := score + subdomains_penalty num_subdomains in
  let url_lower := lower url in
  let score := score + ip_address_penalty url in
  let score := score + tld_penalty url_lower in
  let score := score + non_ascii_penalty url in
  Ok score.

Definition predict_with_rules (features : gmap string Q) (url : string)
    : result (label * Q * Z) :=
  '(is_trusted, reason) ← is_trusted_domain url;
  if is_trusted : bool then Ok (Safe, float 98, 2)
  else
    score ← rules_score features url;
    Ok (rules_verdict score).

(** *** [predict_with_xgboost] *)

(** [import xgboost as xgb] *)
Definition import_xgboost : result unit :=
  if xgboost_installed then Ok tt else Raise ImportError.

(** [features[name]] *)
Definition getitem (features : gmap string Q) (name : string) : result Q :=
  match features !! name with
  | Some v => Ok v
  | None => Raise KeyError
  end.

(** [self.model.predict(dmatrix)[0]] *)
Definition model_predict (self : PhishingPredictor) (feature_array : list Q) : result Q :=
  match model self with
  | Some booster => booster feature_array
  | None => Raise AttributeError
  end.

(** the decision bands on the phishing probability *)
Definition xgboost_verdict (phishing_probability : Q) : label * Q * Z :=
  if Qgt_bool phishing_probability (7 # 10) then
    (Phishing, (phishing_probability * float 100)%Q, py_int (phishing_probability * float 100))
  else if Qgt_bool phishing_probability (3 # 10) then
    (Safe, ((float 1 - phishing_probability) * float 85)%Q,
     py_int (phishing_probability * float 100))
  else
    (Safe, ((float 1 - phishing_probability) * float 100)%Q,
     py_int (phishing_probability * float 100)).

Definition predict_with_xgboost (self : PhishingPredictor)
    (features : gmap string Q) (url : string) : result (label * Q * Z) :=
  try_except
    (_ ← import_xgboost;
     '(is_trusted, reason) ← is_trusted_domain url;
     if is_trusted : bool then Ok (Safe, float 97, 3)
     else
       feature_array ← mapM (getitem features) feature_names;
       phishing_probability ← model_predict self feature_array;
       Ok (xgboost_verdict phishing_probability))
    (fun _ => predict_with_rules features url).

(** *** [predict] *)

(** [self.model_loaded and self.model is not None] *)
Definition uses_model (self : PhishingPredictor) : bool :=
  model_loaded self && bool_decide (is_Some (model self)).

(** the [try] block *)
Definition predict_try (self : PhishingPredictor) (url : string)
    : result (label * Q * Z * gmap string Q) :=
  features ← extract_features url;
  '(label, confidence, risk_score) ←
    (if uses_model self
     then predict_with_xgboost self features url
     else predict_with_rules features url);
  _ ← is_trusted_domain url;
  Ok (label, confidence, risk_score, features).

(** the [except Exception] block *)
Definition predict_except (url : string) (e : exn)
    : result (label * Q * Z * gmap string Q) :=
  default_features ← extract_features url;
  Ok (Safe, float 75, 25, default_features).

Definition predict (self : PhishingPredictor) (url : string)
    : result (label * Q * Z * gmap string Q) :=
  try_except (predict_try self url) (predict_except url).

(** *** Reading a verdict *)

Definition label_of (v : label * Q * Z) : label := fst (fst v).
Definition confidence_of (v : label * Q * Z) : Q := snd (fst v).
Definition risk_of (v : label * Q * Z) : Z := snd v.

(** the [risk_score] that the rule path gives a URL: its features
    extracted, then scored by [predict_with_rules] *)
Definition rule_risk (url : string) : result Z :=
  features ← extract_features url;
  verdict ← predict_with_rules features url;
  Ok (risk_of verdict).

(** *** The specification's wording, for comparison *)

(** [round(x)] as the specification writes it: the nearest integer, a tie
    going to the even neighbour as Python's [round] does *)
Definition spec_round (x : Q) : Z :=
  let lo := Qfloor x in
  let twice_rest := ((x - inject_Z lo) * inject_Z 2)%Q in
  if Qgt_bool twice_rest (float 1) then lo + 1
  else if Qeq_bool twice_rest (float 1) then (if Z.even lo then lo else lo + 1)
  else lo.

(** the model scorer's [risk_score] as the specification states it *)
Definition spec_model_risk_rounds : Prop :=
  forall p : Q, (0 <= p)%Q -> (p <= 1)%Q ->
    risk_of (xgboost_verdict p) = spec_round (p * float 100).

(** the monotonicity the specification states for the rule scorer: one
    more occurrence of a suspicious keyword, put anywhere into a URL,
    never lowers the risk score *)
Definition spec_keyword_insertion_monotone : Prop :=
  forall (before after keyword : string) (r r' : Z),
    In keyword suspicious_keywords ->
    rule_risk (before +:+ after) = Ok r ->
    rule_risk (before +:+ keyword +:+ after) = Ok r' ->
    r <= r'.

(** *** Predictors and feature mappings for the examples *)

(** a predictor without a model, and one with the model [booster] loaded *)
Definition rule_based : PhishingPredictor := mkPredictor None false.
Definition with_model (booster : Booster) : PhishingPredictor :=
  mkPredictor (Some booster) true.

(** a booster that answers the same probability for every row *)
Definition constant_booster (p : Q) : Booster := fun _ => Ok p.

(** a synthetic features mapping that scores exactly 70: a long URL (+10),
    four keywords (+40), no HTTPS (+20) *)
Definition features_scoring_70 : gmap string Q :=
  <["URL_Length" := PyNum.float 90]> (
  <["Suspicious_Keywords" := PyNum.float 4]> (
  <["Has_HTTPS" := PyNum.float 0]> ∅)).

(** the features of [https://paypal-secure-login.suspicious-domain.tk]:
    48 characters, 5 of them special, a host with two dots, the three
    keywords [login], [secure], [paypal], and HTTPS *)
Definition paypal_url_features : gmap string Q :=
  <["URL_Length" := PyNum.float 48]> (
  <["Special_Chars" := PyNum.float 5]> (
  <["Num_Subdomains" := PyNum.float 1]> (
  <["Suspicious_Keywords" := PyNum.float 3]> (
  <["Has_HTTPS" := PyNum.float 1]> ∅)))).

(** *** [get_model_info] *)

(** The dictionary that [get_model_info] returns, key by key.
    [self.model_path] and [os.path.exists(self.model_path)] come from the
    runtime and are arguments. *)
Record ModelInfo : Type := mkModelInfo {
  info_model_type : string;
  info_model_loaded : bool;
  info_model_path : string;
  info_feature_names : list string;
  info_model_exists : bool;
  info_trusted_domains : nat;
  info_malaysian_edu_domains : nat;
  info_trusted_tld_patterns : nat;
  info_version : string;
  info_fixes : list string
}.

Definition get_model_info (self : PhishingPredictor) (model_path : string)
    (path_exists : bool) : ModelInfo :=
  {| info_model_type :=
       if model_loaded self then "XGBoost (Enhanced v3.1.2)"
       else "Rule-based (Enhanced v3.1.2)";
     info_model_loaded := model_loaded self;
     info_model_path := model_path;
     info_feature_names := feature_names;
     info_model_exists := path_exists;
     info_trusted_domains := List.length TRUSTED_DOMAINS;
     info_malaysian_edu_domains := List.length MALAYSIAN_EDU_DOMAINS;
     info_trusted_tld_patterns := List.length TRUSTED_TLD_PATTERNS;
     info_version := "3.1.2-comprehensive";
     info_fixes :=
       [ "Educational domain recognition (.edu, .ac)";
         "Government domain recognition (.gov, .mil)";
         "Malaysian educational institutions";
         "Conservative scoring thresholds";
         "Enhanced subdomain analysis";
         "IP address detection";
         "Suspicious TLD detection" ] |}.

(** *** The global predictor: [get_predictor], [predict_url],
    [get_model_status]

    The module keeps one predictor in the global [_predictor], [None]
    until the first use.  The functions below take the global's value and
    return the new one beside their result. *)

(** what [__init__] finds when it runs: whether the model file exists, the
    fresh booster, and what loading the file gives *)
Record Environment : Type := mkEnvironment {
  env_model_path : string;
  env_path_exists : bool;
  env_blank : Booster;
  env_load_model : result Booster
}.

(** [PhishingPredictor()] *)
Definition new_predictor (env : Environment) : PhishingPredictor :=
  load_xgboost_model (env_path_exists env) (env_blank env) (env_load_model env).

Definition get_predictor (env : Environment) (_predictor : option PhishingPredictor)
    : PhishingPredictor * option PhishingPredictor :=
  match _predictor with
  | None => let predictor := new_predictor env in (predictor, Some predictor)
  | Some predictor => (predictor, Some predictor)
  end.

Definition predict_url (env : Environment) (_predictor : option PhishingPredictor)
    (url : string)
    : result (label * Q * Z * gmap string Q) * option PhishingPredictor :=
  let '(predictor, _predictor) := get_predictor env _predictor in
  (predict predictor url, _predictor).

Definition get_model_status (env : Environment) (_predictor : option PhishingPredictor)
    : ModelInfo * option PhishingPredictor :=
  let '(predictor, _predictor) := get_predictor env _predictor in
  (get_model_info predictor (env_model_path env) (env_path_exists env), _predictor).

(** *** [URLInput.validate_url] of [schemas.py], which the API applies to
    a URL before [predict_url] sees it *)

(** [c.isspace()] for a code point below 256 *)
Definition is_space (c : ascii) : bool :=
  in_range 9 13 c || in_range 28 32 c || (ord c =? 133)%N || (ord c =? 160)%N.

(** [s.rstrip()] *)
Fixpoint rstrip (s : string) : string :=
  match s with
  | "" => ""
  | String c s' =>
      match rstrip s' with
      | "" => if is_space c then "" else String c ""
      | rest => String c rest
      end
  end.

(** [s.strip()] *)
Definition strip (s : string) : string := rstrip (lstrip is_space s).

(** [v.startswith(('http://', 'https://'))] *)
Definition has_http_prefix (v : string) : bool :=
  startswith v "http://" || startswith v "https://".

Definition validate_url (v : string) : result string :=
  let v := strip v in
  if String.eqb v "" then Raise ValueError
  else
    let v := if negb (has_http_prefix v) then "http://" +:+ v else v in
    _ ← try_except
          (parsed ← urlparse v;
           if String.eqb (netloc parsed) "" then Raise ValueError else Ok tt)
          (fun _ => Raise ValueError);
    Ok v.

(** the URL that the validator hands on when it accepts the stripped
    input [v] *)
Definition with_http_prefix (v : string) : string :=
  if has_http_prefix v then v else "http://" +:+ v.

(** *** [extract_features] of [features_old.py], the earlier extractor *)

Definition suspicious_keywords_old : list string :=
  [ "login"; "secure"; "account"; "update"; "bank"; "paypal"; "verify";
    "confirm"; "signin"; "password" ].

(** It has no [try]: what [urlparse] raises reaches the caller.  Its
    values are integers. *)
Definition extract_features_old (url : string) : result (gmap string Z) :=
  parsed ← urlparse url;
  let features : gmap string Z :=
    <["URL_Length" := len url]> (
    <["Special_Chars" := sum_counts "@/?=_-" url]> (
    <["Num_Subdomains" :=
        if 0 <? count "." (netloc parsed) then count "." (netloc parsed) - 1 else 0]> (
    <["Suspicious_Keywords" :=
        Z.of_nat (List.length (List.filter (contains (lower url)) suspicious_keywords_old))]> (
    <["Has_HTTPS" := if String.eqb (scheme parsed) "https" then 1 else 0]> ∅)))) in
  Ok features.

(** *** [test_educational_domains] *)

Definition test_urls : list string :=
  [ "https://smap.uthm.edu.my";
    "https://portal.utm.my";
    "https://student.upm.edu.my";
    "https://library.um.edu.my";
    "https://student.mit.edu";
    "https://portal.stanford.edu";
    "https://blackboard.ox.ac.uk";
    "https://moodle.cam.ac.uk";
    "https://portal.gov.my";
    "https://irs.gov";
    "https://google.com";
    "https://github.com";
    "https://google-security-update.suspicious-domain.tk";
    "https://paypal-verification.fake-site.ml" ].

(** what the loop computes for one URL before printing it: the verdict and
    the trust decision *)
Definition test_row (predictor : PhishingPredictor) (url : string)
    : result (label * Q * Z * bool) :=
  '(label, confidence, risk_score, features) ← predict predictor url;
  '(is_trusted, reason) ← is_trusted_domain url;
  Ok (label, confidence, risk_score, is_trusted).

(** *** [Urllib.urlparse] on a URL with a scheme in front *)

(** what [urlsplit] gives for a URL that begins with [scheme://], the
    scheme being one of the two below *)
Definition split_after_scheme (scheme rest : string) : result ParseResult :=
  let netloc :=
    PyStr.take_until Urllib.is_netloc_delim
      (PyStr.remove Urllib.is_unsafe_url_byte rest) in
  if (PyStr.has_char "[" netloc && negb (PyStr.has_char "]" netloc)) ||
     (PyStr.has_char "]" netloc && negb (PyStr.has_char "[" netloc))
  then Raise ValueError
  else Ok (mkParseResult scheme netloc).

(** *** The model scorer in floating point *)

(** [self.model.predict(dmatrix)[0]] *)
Definition model_predict_float {A : FloatArith} (model : option (FloatBooster A))
    (feature_array : list Q) : result (fp A) :=
  match model with
  | Some booster => booster feature_array
  | None => Raise AttributeError
  end.

(** the decision bands, lines 225 to 236; [int] raises on a product that
    denotes no number *)
Definition xgboost_verdict_float {A : FloatArith} (phishing_probability : fp A)
    : result (label * fp A * Z) :=
  if fp_gt phishing_probability (7 # 10) then
    let confidence := fp_float (fp_mul phishing_probability 100) in
    risk_score ← fp_int (fp_mul phishing_probability 100);
    Ok (Phishing, confidence, risk_score)
  else if fp_gt phishing_probability (3 # 10) then
    let confidence := fp_float (fp_mul (fp_rsub 1 phishing_probability) 85) in
    risk_score ← fp_int (fp_mul phishing_probability 100);
    Ok (Safe, confidence, risk_score)
  else
    let confidence := fp_float (fp_mul (fp_rsub 1 phishing_probability) 100) in
    risk_score ← fp_int (fp_mul phishing_probability 100);
    Ok (Safe, confidence, risk_score).

Definition predict_with_xgboost_float {A : FloatArith} (model : option (FloatBooster A))
    (features : gmap string Q) (url : string) : result (label * Confidence A * Z) :=
  try_except
    (_ ← import_xgboost;
     '(is_trusted, reason) ← is_trusted_domain url;
     if is_trusted : bool then Ok (Safe, Exact (float 97), 3)
     else
       feature_array ← mapM (getitem features) feature_names;
       phishing_probability ← model_predict_float model feature_array;
       '(label, confidence, risk_score) ← xgboost_verdict_float phishing_probability;
       Ok (label, Computed confidence, risk_score))
    (fun _ =>
       '(label, confidence, risk_score) ← predict_with_rules features url;
       Ok (label, Exact confidence, risk_score)).

(** a verdict of the exact arithmetic read as one of [predict_with_xgboost] *)
Definition exact_verdict (v : label * Confidence exact_arith * Z) : label * Q * Z :=
  match v with
  | (label, Exact c, risk_score) => (label, c, risk_score)
  | (label, Computed x, risk_score) => (label, x, risk_score)
  end.

(** *** The host of a URL, as the specification means it *)

(** what follows the last [c] in [s], all of [s] when [c] does not occur:
    [s.rpartition(c)[2]] *)
Fixpoint after_last (c : ascii) (s : string) : string :=
  match s with
  | "" => ""
  | String a s' =>
      if has_char c s' then after_last c s'
      else if Ascii.eqb a c then s' else s
  end.

(** the authority without its userinfo: [user:password@] in front of the
    host is no part of the host *)
Definition spec_hostinfo (netloc : string) : string := after_last "@" netloc.

(** the normalized host of the specification: the host lower-cased, one
    leading prefix removed, the port cut off *)
Definition spec_normalized_host (netloc : string) : string :=
  normalize_domain (spec_hostinfo netloc).

(** the trust decision the specification states for an educational
    sounding host *)
Definition spec_educational_host_trusted : Prop :=
  forall (url : string) (parsed : ParseResult),
    urlparse url = Ok parsed ->
    let host := spec_normalized_host (netloc parsed) in
    List.existsb (contains host) university_keywords = true ->
    List.existsb (contains host) suspicious_host_words = false ->
    exists reason, is_trusted_domain url = Ok (true, reason).

(** ** Facts that hold for every [urlparse] *)

(** *** Exceptions and arithmetic *)

Lemma try_except_always_ok {A} (body : result A) (handler : exn -> result A) :
  (forall e, exists a, handler e = Ok a) ->
  exists a, try_except body handler = Ok a.
Proof.
  intros Hh. destruct body as [a|e]; simpl; eauto.
Qed.

Lemma Qgt_bool_true x y : Qgt_bool x y = true <-> (y < x)%Q.
Proof.
  unfold Qgt_bool. rewrite negb_true_iff, <- not_true_iff_false, Qle_bool_iff.
  split; [apply Qnot_le_lt | apply Qlt_not_le].
Qed.

Lemma Qgt_bool_false x y : Qgt_bool x y = false <-> (x <= y)%Q.
Proof.
  unfold Qgt_bool. rewrite negb_false_iff. apply Qle_bool_iff.
Qed.

Lemma Qge_bool_true x y : Qge_bool x y = true <-> (y <= x)%Q.
Proof. apply Qle_bool_iff. Qed.

Lemma Qge_bool_false x y : Qge_bool x y = false <-> (x < y)%Q.
Proof.
  unfold Qge_bool. rewrite <- not_true_iff_false, Qle_bool_iff.
  split; [apply Qnot_le_lt | apply Qlt_not_le].
Qed.

(** [max(x, 1)] is at least 1, whatever [x] is. *)
Lemma py_max_one_lower (x : Q) : (1 <= py_max x (float 1))%Q.
Proof.
  unfold py_max, float.
  destruct (Qgt_bool (inject_Z 1) x) eqn:Hgt.
  - apply Qle_refl.
  - apply Qgt_bool_false in Hgt. exact Hgt.
Qed.

Lemma py_max_one_nonzero (x : Q) : Qeq_bool (py_max x (float 1)) (float 0) = false.
Proof.
  apply not_true_iff_false. rewrite Qeq_bool_iff. intros Heq.
  pose proof (py_max_one_lower x) as Hlow. rewrite Heq in Hlow.
  unfold float in Hlow. revert Hlow. apply Qlt_not_le. reflexivity.
Qed.

Lemma py_div_by_max (a x : Q) :
  py_div a (py_max x (float 1)) = Ok (a / py_max x (float 1))%Q.
Proof. unfold py_div. now rewrite py_max_one_nonzero. Qed.

(** *** The functions that catch their own exceptions *)

Lemma extract_features_ok (url : string) :
  exists features, extract_features url = Ok features.
Proof.
  unfold extract_features. apply try_except_always_ok. eauto.
Qed.

Lemma is_trusted_domain_ok (url : string) :
  exists trusted reason, is_trusted_domain url = Ok (trusted, reason).
Proof.
  unfold is_trusted_domain.
  destruct (urlparse url) as [parsed|e]; unfold try_except, mbind, result_bind;
    [| eauto].
  repeat case_match; simplify_eq; eauto.
Qed.

(** The accumulated score, penalty by penalty. *)
Lemma rules_score_sum (features : gmap string Q) (url : string) :
  rules_score features url =
  Ok (length_penalty (get features "URL_Length" (float 0))
      + special_chars_penalty
          (get features "Special_Chars" (float 0)
           / py_max (get features "URL_Length" (float 0)) (float 1))%Q
          (get features "Special_Chars" (float 0))
      + keywords_penalty (get features "Suspicious_Keywords" (float 0))
      + https_penalty (get features "Has_HTTPS" (float 1))
      + subdomains_penalty (get features "Num_Subdomains" (float 0))
      + ip_address_penalty url
      + tld_penalty (lower url)
      + non_ascii_penalty url).
Proof.
  unfold rules_score. rewrite py_div_by_max.
  unfold mbind, result_bind. reflexivity.
Qed.

Lemma predict_with_rules_untrusted (features : gmap string Q) (url reason : string) :
  is_trusted_domain url = Ok (false, reason) ->
  exists score,
    rules_score features url = Ok score /\
    predict_with_rules features url = Ok (rules_verdict score).
Proof.
  intros Hnot. unfold predict_with_rules. rewrite Hnot.
  rewrite rules_score_sum. unfold mbind, result_bind. eauto.
Qed.

Lemma predict_with_rules_ok (features : gmap string Q) (url : string) :
  exists verdict, predict_with_rules features url = Ok verdict.
Proof.
  destruct (is_trusted_domain_ok url) as (trusted & reason & Ht).
  destruct trusted.
  - unfold predict_with_rules. rewrite Ht. unfold mbind, result_bind. eauto.
  - destruct (predict_with_rules_untrusted features url reason Ht) as (score & _ & Hp).
    eauto.
Qed.

(** *** The rule scorer *)

(** C10. The rule scorer divides [Special_Chars] by [max(URL_Length, 1)].
    For every features mapping and every URL the divisor is at least 1, so
    the division returns the quotient and never raises; the score is
    computed and [predict_with_rules] returns a verdict. *)
Theorem special_char_ratio_never_divides_by_zero
    (features : gmap string Q) (url : string) :
  let url_length := get features "URL_Length" (float 0) in
  let special_chars := get features "Special_Chars" (float 0) in
  (1 <= py_max url_length (float 1))%Q /\
  py_div special_chars (py_max url_length (float 1))
    = Ok (special_chars / py_max url_length (float 1))%Q /\
  (exists score, rules_score features url = Ok score) /\
  (exists verdict, predict_with_rules features url = Ok verdict).
Proof.
  intros url_length special_chars. repeat split.
  - apply py_max_one_lower.
  - apply py_div_by_max.
  - rewrite rules_score_sum. eauto.
  - apply predict_with_rules_ok.
Qed.

(** C9. The rule scorer reads a missing [Has_HTTPS] as 1, so that the
    missing-HTTPS penalty is not applied, and every other missing feature
    as 0: a mapping that lacks a key scores as the mapping with the key
    set to that default.  An empty mapping incurs no feature-based
    penalty: its score is the sum of the three penalties read off the URL
    text. *)
Theorem rules_missing_feature_defaults (features : gmap string Q) (url : string) :
  (features !! "Has_HTTPS" = None ->
     https_penalty (get features "Has_HTTPS" (float 1)) = 0 /\
     rules_score features url = rules_score (<["Has_HTTPS" := float 1]> features) url) /\
  (forall key,
     In key ["URL_Length"; "Special_Chars"; "Suspicious_Keywords"; "Num_Subdomains"] ->
     features !! key = None ->
     rules_score features url = rules_score (<[key := float 0]> features) url) /\
  rules_score ∅ url
    = Ok (ip_address_penalty url + tld_penalty (lower url) + non_ascii_penalty url).
Proof.
  split; [| split].
  - intros Hnone. split.
    + unfold get. rewrite Hnone. reflexivity.
    + rewrite !rules_score_sum. unfold get.
      rewrite lookup_insert_eq, !lookup_insert_ne by discriminate.
      rewrite Hnone. reflexivity.
  - intros key Hin Hnone. rewrite !rules_score_sum. unfold get.
    simpl in Hin.
    destruct Hin as [<- | [<- | [<- | [<- | []]]]];
      rewrite ?lookup_insert_eq, ?lookup_insert_ne by discriminate;
      rewrite Hnone; reflexivity.
  - rewrite rules_score_sum. unfold get. rewrite !lookup_empty. reflexivity.
Qed.

(** C2. For a URL that the trust matcher does not trust, the rule scorer
    returns [risk_score = min(score, 100)] for the accumulated score, with
    label Phishing and confidence [min(95, risk_score)] when
    [risk_score >= 70], label Safe and confidence [min(70, 100 - risk_score)]
    when [50 <= risk_score < 70], and label Safe and confidence
    [min(95, 100 - risk_score + 10)] below 50.  A score of exactly 70 is
    labelled Phishing and a score of 69 Safe. *)
Theorem rules_final_decision (features : gmap string Q) (url reason : string) :
  is_trusted_domain url = Ok (false, reason) ->
  exists score verdict,
    rules_score features url = Ok score /\
    predict_with_rules features url = Ok verdict /\
    risk_of verdict = Z.min score 100 /\
    (70 <= risk_of verdict ->
       label_of verdict = Phishing /\
       confidence_of verdict = float (Z.min 95 (risk_of verdict))) /\
    (50 <= risk_of verdict < 70 ->
       label_of verdict = Safe /\
       confidence_of verdict = float (Z.min 70 (100 - risk_of verdict))) /\
    (risk_of verdict < 50 ->
       label_of verdict = Safe /\
       confidence_of verdict = float (Z.min 95 (100 - risk_of verdict + 10))) /\
    (score = 70 -> label_of verdict = Phishing) /\
    (score = 69 -> label_of verdict = Safe) /\
    verdict = rules_verdict score /\
    rules_verdict 70 = (Phishing, float 70, 70) /\
    rules_verdict 69 = (Safe, float 31, 69).
Proof.
  intros Hnot.
  destruct (predict_with_rules_untrusted features url reason Hnot) as (score & Hs & Hp).
  exists score, (rules_verdict score).
  split; [exact Hs |]. split; [exact Hp |].
  unfold rules_verdict, label_of, confidence_of, risk_of.
  destruct (70 <=? Z.min score 100) eqn:H70; simpl.
  - apply Z.leb_le in H70. repeat split; try reflexivity; intros; lia.
  - apply Z.leb_gt in H70.
    destruct (50 <=? Z.min score 100) eqn:H50; simpl.
    + apply Z.leb_le in H50. repeat split; try reflexivity; intros; lia.
    + apply Z.leb_gt in H50. repeat split; try reflexivity; intros; lia.
Qed.

(** *** Feature extraction *)

Lemma count_nonneg (c : ascii) (s : string) : 0 <= count c s.
Proof.
  induction s as [|d s IH]; simpl; [lia |].
  destruct (Ascii.eqb d c); lia.
Qed.

Lemma sum_counts_nonneg (chars url : string) : 0 <= sum_counts chars url.
Proof.
  induction chars as [|c chars IH]; simpl; [lia |].
  pose proof (count_nonneg c url). lia.
Qed.

Lemma float_nonneg (n : Z) : 0 <= n -> (0 <= float n)%Q.
Proof. intros Hn. unfold float, inject_Z, Qle. simpl. lia. Qed.

(** C6. For every string, [extract_features] returns (it never raises) a
    mapping whose keys are exactly the five feature names and whose values
    are all at least 0; when parsing the URL fails, the mapping returned is
    the one that has 0 under every feature name. *)
Theorem extract_features_total_and_shaped (url : string) :
  exists features,
    extract_features url = Ok features /\
    dom features = list_to_set feature_names /\
    (forall key value, features !! key = Some value -> (0 <= value)%Q) /\
    (forall e, urlparse url = Raise e -> features = zero_features) /\
    (forall key, In key feature_names -> zero_features !! key = Some (float 0)).
Proof.
  assert (Hdefault : forall key, In key feature_names ->
                       zero_features !! key = Some (float 0)).
  { intros key Hin. simpl in Hin.
    destruct Hin as [<- | [<- | [<- | [<- | [<- | []]]]]]; reflexivity. }
  unfold extract_features.
  destruct (urlparse url) as [parsed|e0] eqn:Hparse;
    unfold try_except, mbind, result_bind; cbv zeta.
  - eexists. split; [reflexivity |]. split; [| split; [| split]].
    + rewrite !dom_insert_L, dom_empty_L. unfold feature_names. simpl. set_solver.
    + intros key value Hlook.
      repeat (apply lookup_insert_Some in Hlook;
              destruct Hlook as [[_ <-] | [_ Hlook]]).
      * apply float_nonneg. unfold len. lia.
      * apply float_nonneg. apply sum_counts_nonneg.
      * apply float_nonneg. destruct (negb _); lia.
      * apply float_nonneg. unfold count_keywords. lia.
      * destruct (String.eqb _ _); apply float_nonneg; lia.
      * rewrite lookup_empty in Hlook. discriminate.
    + intros e He. discriminate.
    + exact Hdefault.
  - exists zero_features. split; [reflexivity |]. split; [| split; [| split]].
    + unfold zero_features.
      rewrite !dom_insert_L, dom_empty_L. unfold feature_names. simpl. set_solver.
    + intros key value Hlook. unfold zero_features in Hlook.
      repeat (apply lookup_insert_Some in Hlook;
              destruct Hlook as [[_ <-] | [_ Hlook]]);
        try (apply float_nonneg; lia).
      rewrite lookup_empty in Hlook. discriminate.
    + reflexivity.
    + exact Hdefault.
Qed.

(** *** The trust matcher *)

(** X25. The rule for educational-sounding names, on the [domain] that
    the code computes: the authority of the URL as [urlparse] gives it
    (userinfo included), lower-cased, one leading prefix removed, cut at
    the first colon.  When this text contains one of [university], [univ],
    [college], [school], [academy] and none of [login], [secure],
    [verify], [update], [is_trusted_domain] answers trusted.  With
    userinfo the text is not the host: [http://school:pw@evil.tk/] is
    trusted on its user name. *)
Theorem educational_sounding_domain_is_trusted (url : string) (parsed : ParseResult) :
  urlparse url = Ok parsed ->
  let domain := normalize_domain (netloc parsed) in
  contains domain "university" = true \/ contains domain "univ" = true \/
  contains domain "college" = true \/ contains domain "school" = true \/
  contains domain "academy" = true ->
  contains domain "login" = false -> contains domain "secure" = false ->
  contains domain "verify" = false -> contains domain "update" = false ->
  exists reason, is_trusted_domain url = Ok (true, reason).
Proof.
  intros Hparse domain Hedu Hlogin Hsecure Hverify Hupdate.
  assert (Huniv : List.existsb (contains domain) university_keywords = true).
  { unfold university_keywords. simpl.
    destruct Hedu as [H | [H | [H | [H | H]]]]; rewrite H;
      rewrite ?orb_true_r; reflexivity. }
  assert (Hsusp : List.existsb (contains domain) suspicious_host_words = false).
  { unfold suspicious_host_words. simpl.
    rewrite Hlogin, Hsecure, Hverify, Hupdate. reflexivity. }
  unfold is_trusted_domain. rewrite Hparse.
  unfold try_except, mbind, result_bind. cbv zeta. fold domain.
  rewrite Huniv, Hsusp.
  repeat case_match; simplify_eq; eauto.
Qed.

(** *** The trust override and the orchestrator *)



(** A predictor that [__init__] built takes the model path only when
    [xgboost] could be imported and the model file was there and loaded. *)
Lemma load_xgboost_model_uses_model (path_exists : bool) (blank : Booster)
    (load_model : result Booster) :
  uses_model (load_xgboost_model path_exists blank load_model) = true ->
  path_exists = true /\ xgboost_installed = true /\ raises load_model = false.
Proof.
  unfold load_xgboost_model, uses_model.
  destruct path_exists, xgboost_installed, load_model; simpl; intros H;
    try discriminate; auto.
Qed.

(** C1. When the trust matcher answers trusted for a URL, the model scorer
    returns Safe with confidence 97.0 and risk score 3, and the rule scorer
    returns Safe with confidence 98.0 and risk score 2, for every features
    mapping and every booster: neither looks at the features.  [predict]
    returns the first verdict when it takes the model path and the second
    when it takes the rule path, each with the extracted features; a
    predictor built without a model file takes the rule path. *)
Theorem trusted_url_fixed_verdict (self : PhishingPredictor)
    (features : gmap string Q) (url reason : string) :
  is_trusted_domain url = Ok (true, reason) ->
  (xgboost_installed = true ->
     predict_with_xgboost self features url = Ok (Safe, float 97, 3)) /\
  predict_with_rules features url = Ok (Safe, float 98, 2) /\
  (exists extracted,
     extract_features url = Ok extracted /\
     (uses_model self = true -> xgboost_installed = true ->
        predict self url = Ok (Safe, float 97, 3, extracted)) /\
     (uses_model self = false ->
        predict self url = Ok (Safe, float 98, 2, extracted)) /\
     (forall path_exists blank load_model,
        let built := load_xgboost_model path_exists blank load_model in
        (path_exists = false -> model_loaded built = false) /\
        predict built url
          = if uses_model built
            then Ok (Safe, float 97, 3, extracted)
            else Ok (Safe, float 98, 2, extracted))).
Proof.
  intros Ht.
  assert (Hxgb : forall self' features', xgboost_installed = true ->
            predict_with_xgboost self' features' url = Ok (Safe, float 97, 3)).
  { intros self' features' Hinst. unfold predict_with_xgboost, import_xgboost.
    rewrite Hinst, Ht. reflexivity. }
  assert (Hrules : forall features',
            predict_with_rules features' url = Ok (Safe, float 98, 2)).
  { intros features'. unfold predict_with_rules. rewrite Ht. reflexivity. }
  assert (Hmodel : forall self' extracted, extract_features url = Ok extracted ->
            uses_model self' = true -> xgboost_installed = true ->
            predict self' url = Ok (Safe, float 97, 3, extracted)).
  { intros self' extracted Hf Huses Hinst. unfold predict, predict_try.
    rewrite Hf. unfold mbind, result_bind at 1.
    rewrite Huses, (Hxgb self' extracted Hinst).
    unfold mbind, result_bind. rewrite Ht. reflexivity. }
  assert (Hrule : forall self' extracted, extract_features url = Ok extracted ->
            uses_model self' = false ->
            predict self' url = Ok (Safe, float 98, 2, extracted)).
  { intros self' extracted Hf Huses. unfold predict, predict_try.
    rewrite Hf. unfold mbind, result_bind at 1.
    rewrite Huses, (Hrules extracted).
    unfold mbind, result_bind. rewrite Ht. reflexivity. }
  split; [apply Hxgb |]. split; [apply Hrules |].
  destruct (extract_features_ok url) as (extracted & Hf).
  exists extracted. split; [exact Hf |].
  split; [apply Hmodel; exact Hf |]. split; [apply Hrule; exact Hf |].
  intros path_exists blank load_model built. split.
  - intros ->. reflexivity.
  - destruct (uses_model built) eqn:Huses.
    + apply Hmodel; [exact Hf | exact Huses |].
      apply (load_xgboost_model_uses_model _ _ _ Huses).
    + apply Hrule; [exact Hf | exact Huses].
Qed.

(** C7. [predict] returns a verdict for every string and never raises.
    Its [except] block turns any exception into label Safe, confidence
    75.0 and risk score 25 with the features extracted afresh, so whatever
    the [try] block does, a raised exception comes out as that verdict;
    and [predict] is its [try] block under that handler. *)
Theorem predict_never_raises (self : PhishingPredictor) (url : string) :
  (exists verdict, predict self url = Ok verdict) /\
  (exists features,
     extract_features url = Ok features /\
     (forall e, predict_except url e = Ok (Safe, float 75, 25, features)) /\
     (forall body, raises body = true ->
        try_except body (predict_except url) = Ok (Safe, float 75, 25, features))) /\
  predict self url = try_except (predict_try self url) (predict_except url).
Proof.
  destruct (extract_features_ok url) as (features & Hf).
  assert (Hexcept : forall e, predict_except url e = Ok (Safe, float 75, 25, features)).
  { intros e. unfold predict_except. rewrite Hf. reflexivity. }
  split; [| split].
  - unfold predict. apply try_except_always_ok. intros e. rewrite Hexcept. eauto.
  - exists features. split; [exact Hf |]. split; [exact Hexcept |].
    intros [v|e] Hraises; [discriminate |]. simpl. apply Hexcept.
  - reflexivity.
Qed.

(** *** The model scorer *)

(** On a fraction that is not negative, [int] is the floor. *)
Lemma py_int_floor (x : Q) : (0 <= x)%Q -> py_int x = Qfloor x.
Proof.
  destruct x as [n d]. unfold py_int, Qfloor, Qle. simpl. intros Hn.
  apply Z.quot_div_nonneg; lia.
Qed.

(** The scorer in the arithmetic without rounding is
    [predict_with_xgboost]. *)
Lemma predict_with_xgboost_float_exact (self : PhishingPredictor)
    (features : gmap string Q) (url : string) :
  (v ← predict_with_xgboost_float (A := exact_arith) (model self) features url;
   Ok (exact_verdict v))
  = predict_with_xgboost self features url.
Proof.
  unfold predict_with_xgboost_float, predict_with_xgboost, import_xgboost,
    model_predict_float, model_predict.
  destruct xgboost_installed; cbn [mbind result_bind try_except].
  - destruct (is_trusted_domain url) as [[[] reason] | e];
      cbn [mbind result_bind try_except].
    + reflexivity.
    + destruct (mapM (getitem features) feature_names) as [row | e];
        cbn [mbind result_bind try_except].
      * destruct (model self) as [booster |]; cbn [mbind result_bind try_except].
        -- destruct (booster row) as [p | e]; cbn [mbind result_bind try_except].
           ++ unfold xgboost_verdict_float, xgboost_verdict. cbn.
              destruct (Qgt_bool p (7 # 10)); [reflexivity |].
              destruct (Qgt_bool p (3 # 10)); reflexivity.
           ++ destruct (predict_with_rules features url) as [[[l c] r] | e'];
                reflexivity.
        -- destruct (predict_with_rules features url) as [[[l c] r] | e'];
             reflexivity.
      * destruct (predict_with_rules features url) as [[[l c] r] | e'];
          reflexivity.
    + destruct (predict_with_rules features url) as [[[l c] r] | e'];
        reflexivity.
  - destruct (predict_with_rules features url) as [[[l c] r] | e'];
      reflexivity.
Qed.

(** The model scorer run to its bands: [xgboost] importable, the URL not
    trusted, the row built and the booster answering. *)
Lemma predict_with_xgboost_float_run (A : FloatArith)
    (model : option (FloatBooster A)) (features : gmap string Q)
    (url reason : string) (feature_array : list Q) (p : fp A)
    (label : label) (confidence : fp A) (risk_score : Z) :
  xgboost_installed = true ->
  is_trusted_domain url = Ok (false, reason) ->
  mapM (getitem features) feature_names = Ok feature_array ->
  model_predict_float model feature_array = Ok p ->
  xgboost_verdict_float p = Ok (label, confidence, risk_score) ->
  predict_with_xgboost_float model features url
  = Ok (label, Computed confidence, risk_score).
Proof.
  intros Hinst Hnot Harray Hmodel Hv.
  unfold predict_with_xgboost_float, import_xgboost.
  rewrite Hinst, Hnot. unfold mbind at 1 2, result_bind. cbv iota beta.
  rewrite Harray. unfold mbind at 1, result_bind.
  rewrite Hmodel. unfold mbind at 1, result_bind. rewrite Hv. reflexivity.
Qed.

(** C3, as the code has it.  When [xgboost] is importable, the URL is not
    trusted, and the booster returns the floating-point probability [p]
    for the row of features, the product [p * 100] that the code computes
    denoting the number [product]: the model scorer returns risk score
    [int(p * 100)], which is [product] cut off toward zero (its floor when
    it is not negative) and not its rounding, with label Phishing and the
    computed [p * 100] as confidence when [p > 0.7] holds; label Safe and
    the computed [(1 - p) * 85] when [p > 0.7] fails and [p > 0.3] holds;
    label Safe and the computed [(1 - p) * 100] when both fail.  The
    comparisons, the products and the difference are those of the
    floating-point arithmetic [A], whichever it is. *)
Theorem xgboost_float_decision_bands (A : FloatArith)
    (model : option (FloatBooster A)) (features : gmap string Q)
    (url reason : string) (feature_array : list Q) (p : fp A) (product : Q) :
  xgboost_installed = true ->
  is_trusted_domain url = Ok (false, reason) ->
  mapM (getitem features) feature_names = Ok feature_array ->
  model_predict_float model feature_array = Ok p ->
  fp_value (fp_mul p 100) = Some product ->
  exists label confidence,
    predict_with_xgboost_float model features url
      = Ok (label, Computed confidence, py_int product) /\
    ((0 <= product)%Q -> py_int product = Qfloor product) /\
    (fp_gt p (7 # 10) = true ->
       label = Phishing /\
       confidence = fp_float (fp_mul p 100) /\
       fp_value confidence = Some product) /\
    (fp_gt p (7 # 10) = false -> fp_gt p (3 # 10) = true ->
       label = Safe /\
       confidence = fp_float (fp_mul (fp_rsub 1 p) 85)) /\
    (fp_gt p (7 # 10) = false -> fp_gt p (3 # 10) = false ->
       label = Safe /\
       confidence = fp_float (fp_mul (fp_rsub 1 p) 100)).
Proof.
  intros Hinst Hnot Harray Hmodel Hproduct.
  assert (Hint : fp_int (fp_mul p 100) = Ok (py_int product))
    by (apply fp_int_value; exact Hproduct).
  assert (Hrun : forall v,
            xgboost_verdict_float p = Ok v ->
            predict_with_xgboost_float model features url
            = Ok (fst (fst v), Computed (snd (fst v)), snd v)).
  { intros [[l c] r] Hv.
    exact (predict_with_xgboost_float_run _ _ _ _ _ _ _ _ _ _
             Hinst Hnot Harray Hmodel Hv). }
  unfold xgboost_verdict_float in Hrun. rewrite Hint in Hrun.
  cbn [mbind result_bind] in Hrun.
  destruct (fp_gt p (7 # 10)) eqn:H7; [| destruct (fp_gt p (3 # 10)) eqn:H3];
    specialize (Hrun _ eq_refl); cbn [fst snd] in Hrun;
    eexists _, _; (split; [exact Hrun |]);
    (split; [apply py_int_floor |]).
  - split; [intros _; split; [reflexivity | split; [reflexivity |]] |].
    + rewrite fp_float_value. exact Hproduct.
    + split; [discriminate | discriminate].
  - split; [discriminate |]. split; [intros _ _; split; reflexivity |].
    intros _ Hf. discriminate.
  - split; [discriminate |]. split; [intros _ Hf; discriminate |].
    intros _ _. split; reflexivity.
Qed.

(** X24. When [int] raises on the product [p * 100], as it does when the
    booster answers a NaN or an infinite value, the model scorer returns
    what the rule scorer returns. *)
Theorem nan_probability_falls_back_to_rules (A : FloatArith)
    (model : option (FloatBooster A)) (features : gmap string Q)
    (url reason : string) (feature_array : list Q) (p : fp A) (e : exn) :
  is_trusted_domain url = Ok (false, reason) ->
  mapM (getitem features) feature_names = Ok feature_array ->
  model_predict_float model feature_array = Ok p ->
  fp_int (fp_mul p 100) = Raise e ->
  predict_with_xgboost_float model features url
  = ('(label, confidence, risk_score) ← predict_with_rules features url;
     Ok (label, Exact confidence, risk_score)).
Proof.
  intros Hnot Harray Hmodel Hint.
  unfold predict_with_xgboost_float, import_xgboost.
  destruct xgboost_installed; [| reflexivity].
  rewrite Hnot. unfold mbind at 1 2, result_bind. cbv iota beta.
  rewrite Harray. unfold mbind at 1, result_bind.
  rewrite Hmodel. unfold mbind at 1, result_bind.
  unfold xgboost_verdict_float. rewrite Hint.
  destruct (fp_gt p (7 # 10)); [| destruct (fp_gt p (3 # 10))]; reflexivity.
Qed.

(** *** Monotonicity in the keyword count *)

Lemma keywords_penalty_monotone (k k' : Q) :
  (k <= k')%Q -> keywords_penalty k <= keywords_penalty k'.
Proof.
  intros Hle. unfold keywords_penalty, float.
  destruct (Qge_bool k (inject_Z 4)) eqn:K4;
  destruct (Qge_bool k (inject_Z 3)) eqn:K3;
  destruct (Qge_bool k (inject_Z 2)) eqn:K2;
  destruct (Qge_bool k (inject_Z 1)) eqn:K1;
  destruct (Qge_bool k' (inject_Z 4)) eqn:K4';
  destruct (Qge_bool k' (inject_Z 3)) eqn:K3';
  destruct (Qge_bool k' (inject_Z 2)) eqn:K2';
  destruct (Qge_bool k' (inject_Z 1)) eqn:K1';
  try lia;
  rewrite ?Qge_bool_true, ?Qge_bool_false in *;
  simpl in *; lra.
Qed.

Lemma rules_verdict_risk (score : Z) : risk_of (rules_verdict score) = Z.min score 100.
Proof.
  unfold rules_verdict, risk_of.
  destruct (70 <=? Z.min score 100); [reflexivity |].
  destruct (50 <=? Z.min score 100); reflexivity.
Qed.

(** C4, as the code has it.  With the URL and the other features held
    fixed, a larger [Suspicious_Keywords] value never gives a smaller risk
    score from the rule scorer. *)
Theorem rules_risk_monotone_in_keywords (features : gmap string Q)
    (url : string) (k k' : Q) :
  (k <= k')%Q ->
  exists verdict verdict',
    predict_with_rules (<["Suspicious_Keywords" := k]> features) url = Ok verdict /\
    predict_with_rules (<["Suspicious_Keywords" := k']> features) url = Ok verdict' /\
    risk_of verdict <= risk_of verdict'.
Proof.
  intros Hle.
  destruct (is_trusted_domain_ok url) as (trusted & reason & Ht).
  unfold predict_with_rules. rewrite Ht. unfold mbind at 1 3, result_bind.
  destruct trusted.
  - do 2 eexists. split; [reflexivity |]. split; [reflexivity |].
    unfold risk_of. simpl. lia.
  - rewrite !rules_score_sum. unfold mbind, result_bind.
    do 2 eexists. split; [reflexivity |]. split; [reflexivity |].
    rewrite !rules_verdict_risk. unfold get.
    rewrite !lookup_insert_eq, !lookup_insert_ne by discriminate.
    pose proof (keywords_penalty_monotone k k' Hle). lia.
Qed.

(** Every penalty is a multiple of 5, so the accumulated score is one too:
    the rule scorer meets the threshold at 70 from 65, never from 69. *)
Lemma rules_score_multiple_of_5 (features : gmap string Q) (url : string) (score : Z) :
  rules_score features url = Ok score -> (5 | score).
Proof.
  rewrite rules_score_sum. intros [= <-].
  repeat apply Z.divide_add_r;
    unfold length_penalty, special_chars_penalty, keywords_penalty, https_penalty,
           subdomains_penalty, ip_address_penalty, tld_penalty, non_ascii_penalty;
    repeat case_match;
    solve [ exists 0; reflexivity | exists 2; reflexivity | exists 3; reflexivity
          | exists 4; reflexivity | exists 5; reflexivity | exists 6; reflexivity
          | exists 8; reflexivity ].
Qed.

(** ** Further properties of the predictor *)

(** *** What the extractor always gives *)

(** One more character at the front adds its own count among [chars]. *)
Lemma sum_counts_cons (chars : string) (d : ascii) (s : string) :
  sum_counts chars (String d s) = count d chars + sum_counts chars s.
Proof.
  induction chars as [|c chars IH]; simpl; [reflexivity |].
  rewrite IH, (Ascii.eqb_sym c d). lia.
Qed.

(** No character occurs twice among the special characters. *)
Lemma special_characters_distinct (d : ascii) : count d "@/?=_-&%#" <= 1.
Proof.
  destruct d as [[] [] [] [] [] [] [] []]; apply Z.leb_le; vm_compute; reflexivity.
Qed.

Lemma special_chars_at_most_length (url : string) :
  sum_counts "@/?=_-&%#" url <= len url.
Proof.
  induction url as [|d url IH].
  - vm_compute. discriminate.
  - rewrite sum_counts_cons. pose proof (special_characters_distinct d).
    unfold len in *. simpl String.length. lia.
Qed.

Lemma count_keywords_bounds (url_lower : string) : 0 <= count_keywords url_lower <= 20.
Proof.
  unfold count_keywords.
  pose proof (List.filter_length_le (contains url_lower) suspicious_keywords) as Hle.
  change (List.length suspicious_keywords) with 20%nat in Hle. lia.
Qed.

(** the mapping that [extract_features] builds from five whole numbers *)
Lemma extract_features_values (url : string) :
  exists l s n k h : Z,
    extract_features url
      = Ok (<["URL_Length" := float l]> (
            <["Special_Chars" := float s]> (
            <["Num_Subdomains" := float n]> (
            <["Suspicious_Keywords" := float k]> (
            <["Has_HTTPS" := float h]> ∅))))) /\
    0 <= s <= l /\ 0 <= n /\ 0 <= k <= 20 /\ (h = 0 \/ h = 1).
Proof.
  unfold extract_features.
  destruct (urlparse url) as [parsed|e];
    unfold try_except, mbind, result_bind; cbv zeta.
  - exists (len url), (sum_counts "@/?=_-&%#" url),
      (if negb (String.eqb (netloc parsed) "")
       then Z.max 0 (count "." (netloc parsed) - 1) else 0),
      (count_keywords (lower url)),
      (if String.eqb (scheme parsed) "https" then 1 else 0).
    split.
    + destruct (String.eqb (scheme parsed) "https"); reflexivity.
    + pose proof (special_chars_at_most_length url).
      pose proof (sum_counts_nonneg "@/?=_-&%#" url).
      pose proof (count_keywords_bounds (lower url)).
      repeat split; try lia.
      * destruct (negb _); lia.
      * destruct (String.eqb _ _); [right | left]; reflexivity.
  - exists 0, 0, 0, 0, 0. split; [reflexivity |]. lia.
Qed.

(** X1. Whatever the URL, the extracted values are whole numbers with
    [0 <= Special_Chars <= URL_Length], so that the rule scorer's
    special-character ratio is at most 1; [Suspicious_Keywords] is at most
    20, a keyword counting once however often it occurs; [Num_Subdomains]
    is not negative and [Has_HTTPS] is 0 or 1. *)
Theorem extracted_features_bounds (url : string) :
  exists (features : gmap string Q) (l s n k h : Z),
    extract_features url = Ok features /\
    features !! "URL_Length" = Some (float l) /\
    features !! "Special_Chars" = Some (float s) /\
    features !! "Num_Subdomains" = Some (float n) /\
    features !! "Suspicious_Keywords" = Some (float k) /\
    features !! "Has_HTTPS" = Some (float h) /\
    0 <= s <= l /\ 0 <= n /\ 0 <= k <= 20 /\ (h = 0 \/ h = 1) /\
    (float s / py_max (float l) (float 1) <= 1)%Q.
Proof.
  destruct (extract_features_values url) as (l & s & n & k & h & Hf & Hs & Hn & Hk & Hh).
  eexists _, l, s, n, k, h. split; [exact Hf |].
  do 5 (split; [reflexivity |]).
  do 4 (split; [assumption |]).
  pose proof (py_max_one_lower (float l)) as Hone.
  assert (Hl : (float l <= py_max (float l) (float 1))%Q).
  { unfold py_max. destruct (Qgt_bool (float 1) (float l)) eqn:Hgt.
    - apply Qgt_bool_true in Hgt. apply Qlt_le_weak, Hgt.
    - apply Qle_refl. }
  assert (Hsl : (float s <= float l)%Q).
  { unfold float. rewrite <- Zle_Qle. lia. }
  apply Qle_shift_div_r; [lra | lra].
Qed.

(** X2. The row that the model scorer builds from extracted features is
    always there: each of the five names is found, in the order of
    [feature_names], so the [KeyError] fallback is never taken for
    features that [extract_features] returned. *)
Theorem extracted_features_give_model_row (url : string) :
  exists (features : gmap string Q) (l s n k h : Q),
    extract_features url = Ok features /\
    mapM (getitem features) feature_names = Ok [l; s; n; k; h] /\
    features !! "URL_Length" = Some l /\
    features !! "Special_Chars" = Some s /\
    features !! "Num_Subdomains" = Some n /\
    features !! "Suspicious_Keywords" = Some k /\
    features !! "Has_HTTPS" = Some h.
Proof.
  destruct (extract_features_values url) as (l & s & n & k & h & Hf & _).
  eexists _, (float l), (float s), (float n), (float k), (float h).
  split; [exact Hf |]. repeat split; reflexivity.
Qed.

(** *** What a verdict always satisfies *)

Lemma float_le (a b : Z) : a <= b -> (float a <= float b)%Q.
Proof. intros H. unfold float. rewrite <- Zle_Qle. exact H. Qed.

(** The score is a sum of eight penalties, none negative, 190 at most. *)
Lemma rules_score_bounds (features : gmap string Q) (url : string) :
  exists score, rules_score features url = Ok score /\ 0 <= score <= 190.
Proof.
  rewrite rules_score_sum. eexists. split; [reflexivity |].
  assert (H1 : forall x, 0 <= length_penalty x <= 30)
    by (intros; unfold length_penalty; repeat case_match; lia).
  assert (H2 : forall x y, 0 <= special_chars_penalty x y <= 25)
    by (intros; unfold special_chars_penalty; repeat case_match; lia).
  assert (H3 : forall x, 0 <= keywords_penalty x <= 40)
    by (intros; unfold keywords_penalty; repeat case_match; lia).
  assert (H4 : forall x, 0 <= https_penalty x <= 20)
    by (intros; unfold https_penalty; repeat case_match; lia).
  assert (H5 : forall x, 0 <= subdomains_penalty x <= 20)
    by (intros; unfold subdomains_penalty; repeat case_match; lia).
  assert (H6 : forall x, 0 <= ip_address_penalty x <= 25)
    by (intros; unfold ip_address_penalty; repeat case_match; lia).
  assert (H7 : forall x, 0 <= tld_penalty x <= 15)
    by (intros; unfold tld_penalty; repeat case_match; lia).
  assert (H8 : forall x, 0 <= non_ascii_penalty x <= 15)
    by (intros; unfold non_ascii_penalty; repeat case_match; lia).
  match goal with
  | |- 0 <= ?a + ?b + ?c + ?d + ?e + ?f + ?g + ?h <= 190 =>
      match a with length_penalty ?x => pose proof (H1 x) end;
      match b with special_chars_penalty ?x ?y => pose proof (H2 x y) end;
      match c with keywords_penalty ?x => pose proof (H3 x) end;
      match d with https_penalty ?x => pose proof (H4 x) end;
      match e with subdomains_penalty ?x => pose proof (H5 x) end;
      match f with ip_address_penalty ?x => pose proof (H6 x) end;
      match g with tld_penalty ?x => pose proof (H7 x) end;
      match h with non_ascii_penalty ?x => pose proof (H8 x) end
  end.
  lia.
Qed.

Lemma rules_verdict_invariants (score : Z) :
  0 <= score ->
  0 <= risk_of (rules_verdict score) <= 100 /\
  (float 31 <= confidence_of (rules_verdict score))%Q /\
  (confidence_of (rules_verdict score) <= float 95)%Q /\
  (label_of (rules_verdict score) = Phishing <-> 70 <= risk_of (rules_verdict score)).
Proof.
  intros Hs. unfold rules_verdict, risk_of, confidence_of, label_of.
  destruct (70 <=? Z.min score 100) eqn:H70; simpl.
  - apply Z.leb_le in H70.
    repeat split; try lia; try (apply float_le; lia); auto.
  - apply Z.leb_gt in H70.
    destruct (50 <=? Z.min score 100) eqn:H50; simpl.
    + apply Z.leb_le in H50.
      repeat split; try lia; try (apply float_le; lia); try discriminate.
    + apply Z.leb_gt in H50.
      repeat split; try lia; try (apply float_le; lia); try discriminate.
Qed.





(** X3. On every input, trusted or not, the rule scorer returns a risk
    score between 0 and 100 and a confidence between 31 and 98, and its
    label is Phishing exactly when the risk score is at least 70. *)
Theorem predict_with_rules_verdict_invariants
    (features : gmap string Q) (url : string) :
  exists verdict,
    predict_with_rules features url = Ok verdict /\
    0 <= risk_of verdict <= 100 /\
    (float 31 <= confidence_of verdict)%Q /\
    (confidence_of verdict <= float 98)%Q /\
    (label_of verdict = Phishing <-> 70 <= risk_of verdict).
Proof.
  destruct (is_trusted_domain_ok url) as (trusted & reason & Ht).
  destruct trusted.
  - exists (Safe, float 98, 2). split.
    + unfold predict_with_rules. rewrite Ht. reflexivity.
    + unfold risk_of, confidence_of, label_of. simpl.
      repeat split; try lia; try (apply float_le; lia); try discriminate.
  - destruct (predict_with_rules_untrusted features url reason Ht) as (score & Hs & Hp).
    destruct (rules_score_bounds features url) as (score' & Hs' & Hb).
    rewrite Hs in Hs'. injection Hs' as <-.
    exists (rules_verdict score). split; [exact Hp |].
    destruct (rules_verdict_invariants score (proj1 Hb)) as (Hr & Hc1 & Hc2 & Hl).
    repeat split; try apply Hr; try apply Hl; try exact Hc1.
    eapply Qle_trans; [exact Hc2 | apply float_le; lia].
Qed.


(** *** Falling back, and what [predict] hands on *)

(** X5. The model scorer gives exactly the rule scorer's answer whenever
    it cannot finish: when [xgboost] cannot be imported, or, for a URL
    that is not trusted, when a feature name is missing from the mapping,
    when there is no booster, or when the booster raises. *)
Theorem xgboost_failure_falls_back_to_rules (self : PhishingPredictor)
    (features : gmap string Q) (url : string) :
  xgboost_installed = false \/
  ((exists reason, is_trusted_domain url = Ok (false, reason)) /\
   (raises (mapM (getitem features) feature_names) = true \/
    exists row, mapM (getitem features) feature_names = Ok row /\
                raises (model_predict self row) = true)) ->
  predict_with_xgboost self features url = predict_with_rules features url.
Proof.
  intros [Hinst | [(reason & Ht) Hfail]]; unfold predict_with_xgboost, import_xgboost.
  - rewrite Hinst. reflexivity.
  - destruct xgboost_installed; [| reflexivity].
    rewrite Ht. unfold mbind at 1 2, result_bind. cbv iota beta.
    destruct Hfail as [Hrow | (row & Hrow & Hmodel)].
    + destruct (mapM (getitem features) feature_names); [discriminate | reflexivity].
    + rewrite Hrow. unfold mbind at 1, result_bind.
      destruct (model_predict self row); [discriminate | reflexivity].
Qed.



(** *** Building the predictor, once *)

(** X7. A predictor that [__init__] built has [model_loaded] set exactly
    when the model file exists, [xgboost] imports and loading succeeds,
    and then holds the loaded booster; so the path that [predict] takes,
    [model_loaded], and the model type that [get_model_info] reports
    always agree. *)
Theorem built_predictor_status (env : Environment) :
  let self := new_predictor env in
  (model_loaded self = true <->
     env_path_exists env = true /\ xgboost_installed = true /\
     exists booster, env_load_model env = Ok booster /\ model self = Some booster) /\
  uses_model self = model_loaded self /\
  (info_model_type (get_model_info self (env_model_path env) (env_path_exists env))
     = "XGBoost (Enhanced v3.1.2)" <-> uses_model self = true) /\
  (env_path_exists env = false -> model self = None /\ model_loaded self = false).
Proof.
  unfold new_predictor, load_xgboost_model, uses_model, get_model_info.
  destruct (env_path_exists env), xgboost_installed, (env_load_model env) as [b|e];
    simpl; repeat split; intros; try discriminate; try tauto; eauto;
    try (destruct H as (_ & _ & b' & Hb & _); discriminate);
    try (destruct H as (? & ? & _); discriminate).
Qed.

(** X8. The module keeps the predictor it builds on first use: after any
    [predict_url] the global holds a predictor, built from the
    environment of that call if there was none; every later [predict_url]
    and [get_model_status] answers from that same predictor and leaves
    the global as it is, whatever the model file has become. *)
Theorem predictor_is_built_once (env : Environment)
    (_predictor : option PhishingPredictor) (url : string) :
  exists predictor,
    snd (predict_url env _predictor url) = Some predictor /\
    fst (predict_url env _predictor url) = predict predictor url /\
    (_predictor = None -> predictor = new_predictor env) /\
    (forall env' url',
       predict_url env' (Some predictor) url' = (predict predictor url', Some predictor) /\
       snd (get_model_status env' (Some predictor)) = Some predictor /\
       info_model_loaded (fst (get_model_status env' (Some predictor)))
         = model_loaded predictor).
Proof.
  destruct _predictor as [p|].
  - exists p. repeat split; try reflexivity. discriminate.
  - exists (new_predictor env). repeat split; reflexivity.
Qed.

(** *** Strings and patterns *)

Lemma append_cons (c : ascii) (a b : string) : String c a +:+ b = String c (a +:+ b).
Proof. reflexivity. Qed.

Lemma append_empty_r (s : string) : s +:+ "" = s.
Proof.
  induction s as [|c s IH]; [reflexivity |]. now rewrite append_cons, IH.
Qed.

Lemma append_assoc (a b c : string) : (a +:+ b) +:+ c = a +:+ (b +:+ c).
Proof.
  induction a as [|x a IH]; [reflexivity |]. now rewrite !append_cons, IH.
Qed.

Lemma startswith_append (p rest : string) : startswith (p +:+ rest) p = true.
Proof.
  induction p as [|c p IH]; [destruct rest; reflexivity |].
  rewrite append_cons. simpl. now rewrite Ascii.eqb_refl, IH.
Qed.

Lemma startswith_inv (s p : string) :
  startswith s p = true -> exists rest, s = p +:+ rest.
Proof.
  revert s. induction p as [|c p IH]; intros s H.
  - exists s. reflexivity.
  - destruct s as [|d s]; simpl in H; [discriminate |].
    apply andb_true_iff in H as [Hc Hp].
    apply Ascii.eqb_eq in Hc as ->.
    destruct (IH s Hp) as (rest & ->). exists rest. reflexivity.
Qed.

Lemma contains_here (sub rest : string) : contains (sub +:+ rest) sub = true.
Proof.
  destruct sub as [|c sub]; [destruct rest; reflexivity |].
  change (startswith (String c sub +:+ rest) (String c sub)
          || contains (sub +:+ rest) (String c sub) = true).
  now rewrite startswith_append.
Qed.

Lemma contains_later (before s sub : string) :
  contains s sub = true -> contains (before +:+ s) sub = true.
Proof.
  intros H. induction before as [|c before IH]; [exact H |].
  change (startswith (String c (before +:+ s)) sub
          || contains (before +:+ s) sub = true).
  rewrite IH. apply orb_true_r.
Qed.

Lemma endswith_append (before suffix : string) :
  endswith (before +:+ suffix) suffix = true.
Proof.
  induction before as [|c before IH].
  - destruct suffix; simpl; [reflexivity |].
    now rewrite Ascii.eqb_refl, String.eqb_refl.
  - change (String.eqb (String c (before +:+ suffix)) suffix
            || endswith (before +:+ suffix) suffix = true).
    rewrite IH. apply orb_true_r.
Qed.

Lemma endswith_inv (s suffix : string) :
  endswith s suffix = true -> exists before, s = before +:+ suffix.
Proof.
  induction s as [|c s IH]; intros H.
  - change (String.eqb "" suffix || false = true) in H.
    rewrite orb_false_r in H. apply String.eqb_eq in H as <-.
    exists "". reflexivity.
  - change (String.eqb (String c s) suffix || endswith s suffix = true) in H.
    apply orb_true_iff in H as [H | H].
    + apply String.eqb_eq in H as <-. exists "". reflexivity.
    + destruct (IH H) as (before & ->). exists (String c before). reflexivity.
Qed.

Lemma lower_append (a b : string) : lower (a +:+ b) = lower a +:+ lower b.
Proof.
  induction a as [|c a IH]; [reflexivity |].
  rewrite append_cons. simpl. now rewrite IH.
Qed.

(** A literal matches itself and hands the rest to the continuation. *)
Lemma match_literal (text rest : string) (prev : option ascii)
    (k : option ascii -> string -> bool) :
  exists prev', Re.m (Re.lit text) prev (text +:+ rest) k = k prev' rest.
Proof.
  revert prev. induction text as [|c text IH]; intros prev.
  - simpl. eauto.
  - rewrite append_cons. simpl. rewrite Ascii.eqb_refl. simpl. apply IH.
Qed.

Lemma search_from_here (r : Re.regex) (prev : option ascii) (s : string) :
  Re.m r prev s (fun _ _ => true) = true -> Re.search_from r prev s = true.
Proof. intros H. destruct s; simpl; rewrite H; reflexivity. Qed.

(** A string that ends with [suffix] is found by the pattern [suffix$]. *)
Lemma search_literal_suffix (s suffix : string) :
  endswith s suffix = true ->
  Re.search (Re.seqs [Re.lit suffix; Re.Dollar]) s = true.
Proof.
  intros H. destruct (endswith_inv s suffix H) as (before & ->). clear H.
  unfold Re.search. generalize (@None ascii) as prev.
  induction before as [|c before IH]; intros prev.
  - change ("" +:+ suffix) with suffix. apply search_from_here.
    { rewrite <- (append_empty_r suffix) at 2. simpl Re.seqs.
      change (Re.m (Re.lit suffix) prev (suffix +:+ "")
                (fun prev' s' => Re.m (Re.Seq Re.Dollar Re.Eps) prev' s' (fun _ _ => true))
              = true).
      destruct (match_literal suffix "" prev
                  (fun prev' s' => Re.m (Re.Seq Re.Dollar Re.Eps) prev' s' (fun _ _ => true)))
        as (prev' & ->).
      reflexivity. }
  - change (Re.m (Re.seqs [Re.lit suffix; Re.Dollar]) prev
              (String c (before +:+ suffix)) (fun _ _ => true)
            || Re.search_from (Re.seqs [Re.lit suffix; Re.Dollar]) (Some c)
                 (before +:+ suffix) = true).
    rewrite IH. apply orb_true_r.
Qed.

(** *** The trust matcher's rules *)

Lemma find_finds {A} (f : A -> bool) (l : list A) (x : A) :
  In x l -> f x = true -> exists y, List.find f l = Some y.
Proof.
  intros Hin Hx. destruct (List.find f l) as [y|] eqn:Hfind; [eauto |].
  pose proof (List.find_none f l Hfind x Hin) as Hnone. congruence.
Qed.

(** The verdict of the matcher depends on the URL only through the
    normalized host. *)
Lemma is_trusted_domain_by_host (url url' : string) (parsed parsed' : ParseResult) :
  urlparse url = Ok parsed -> urlparse url' = Ok parsed' ->
  normalize_domain (netloc parsed) = normalize_domain (netloc parsed') ->
  is_trusted_domain url = is_trusted_domain url'.
Proof.
  intros H H' Hhost. unfold is_trusted_domain. rewrite H, H'.
  unfold try_except, mbind, result_bind. cbv zeta. rewrite Hhost. reflexivity.
Qed.

(** X9. The list rules, on the [domain] that the code computes: the
    authority of the URL as [urlparse] gives it (userinfo included),
    lower-cased, one leading prefix removed, cut at the first colon.  A
    URL that parses and whose [domain] is a listed domain (a major
    trusted domain or a Malaysian institution), or any text that ends
    with a dot and a listed domain, is trusted.  Without userinfo the
    [domain] is the host; with userinfo it is what stands before the
    first colon of the authority, so that
    [http://accounts.google.com:x@evil.tk/] is trusted. *)
Theorem listed_domain_and_subdomains_trusted (url : string) (parsed : ParseResult)
    (listed sub : string) :
  urlparse url = Ok parsed ->
  In listed (TRUSTED_DOMAINS ++ MALAYSIAN_EDU_DOMAINS) ->
  normalize_domain (netloc parsed) = listed \/
  normalize_domain (netloc parsed) = sub +:+ "." +:+ listed ->
  exists reason, is_trusted_domain url = Ok (true, reason).
Proof.
  intros Hparse Hin Hhost.
  assert (Hunder : is_or_under (normalize_domain (netloc parsed)) listed = true).
  { unfold is_or_under. destruct Hhost as [-> | ->].
    - now rewrite String.eqb_refl.
    - rewrite endswith_append. apply orb_true_r. }
  unfold is_trusted_domain. rewrite Hparse.
  unfold try_except, mbind, result_bind. cbv zeta.
  apply List.in_app_or in Hin.
  destruct (List.find (is_or_under (normalize_domain (netloc parsed))) TRUSTED_DOMAINS)
    as [trusted|] eqn:Hmajor; [eauto |].
  destruct Hin as [Hin | Hin].
  - pose proof (List.find_none _ _ Hmajor listed Hin). congruence.
  - destruct (find_finds _ _ listed Hin Hunder) as (edu & ->). eauto.
Qed.

(** X10. The matcher never gives the reasons [Government domain] and
    [Educational domain]: a host ending in [.gov], [.mil] or [.edu] that
    reaches those checks has already matched one of the patterns
    [\.gov$], [\.mil$], [\.edu$], so the two suffix checks after the
    pattern list cannot decide a URL. *)
Theorem suffix_checks_never_decide (url reason : string) (trusted : bool) :
  is_trusted_domain url = Ok (trusted, reason) ->
  reason <> "Government domain" /\ reason <> "Educational domain".
Proof.
  unfold is_trusted_domain.
  destruct (urlparse url) as [parsed|e]; unfold try_except, mbind, result_bind;
    cbv zeta; [| intros [= <- <-]; split; discriminate].
  set (domain := normalize_domain (netloc parsed)).
  destruct (List.find (is_or_under domain) TRUSTED_DOMAINS) as [t|];
    [intros [= <- <-]; split; discriminate |].
  destruct (List.find (is_or_under domain) MALAYSIAN_EDU_DOMAINS) as [t|];
    [intros [= <- <-]; split; discriminate |].
  destruct (List.find (fun pattern => Re.search (snd pattern) domain)
              TRUSTED_TLD_PATTERNS) as [t|] eqn:Hpat;
    [intros [= <- <-]; split; discriminate |].
  assert (Hno : forall suffix text,
            In (text, Re.seqs [Re.lit suffix; Re.Dollar]) TRUSTED_TLD_PATTERNS ->
            endswith domain suffix = false).
  { intros suffix text Hin.
    destruct (endswith domain suffix) eqn:Hends; [| reflexivity].
    pose proof (List.find_none _ _ Hpat _ Hin) as Hnone.
    change (Re.search (Re.seqs [Re.lit suffix; Re.Dollar]) domain = false) in Hnone.
    rewrite (search_literal_suffix domain suffix Hends) in Hnone. discriminate. }
  rewrite (Hno ".gov" "\.gov$"), (Hno ".mil" "\.mil$"), (Hno ".edu" "\.edu$");
    [| unfold TRUSTED_TLD_PATTERNS; simpl; tauto ..].
  simpl orb. cbv iota.
  repeat match goal with
         | |- context [if ?b then _ else _] => destruct b
         end;
    cbv iota beta; intros [= <- <-]; split; discriminate.
Qed.

(** Everything from the first colon on is cut off after the prefix. *)
Lemma startswith_before_separator (a b prefix : string) :
  has_char ":" prefix = false ->
  startswith (a +:+ String ":" b) prefix = startswith a prefix.
Proof.
  revert a. induction prefix as [|c prefix IH]; intros a Hno.
  - destruct a; reflexivity.
  - unfold has_char in Hno. simpl in Hno.
    destruct (Ascii.eqb c ":") eqn:Hc.
    + pose proof (count_nonneg ":" prefix). apply Z.ltb_ge in Hno. lia.
    + assert (Hno' : has_char ":" prefix = false) by exact Hno.
      destruct a as [|d a].
      * simpl. now rewrite Hc.
      * rewrite append_cons. simpl. now rewrite IH.
Qed.

Lemma drop_prefix_append (a rest prefix : string) :
  startswith a prefix = true ->
  drop (String.length prefix) (a +:+ rest) = drop (String.length prefix) a +:+ rest.
Proof.
  revert a. induction prefix as [|c prefix IH]; intros a H.
  - reflexivity.
  - destruct a as [|d a]; simpl in H; [discriminate |].
    apply andb_true_iff in H as [_ H]. rewrite append_cons. simpl. now apply IH.
Qed.

Lemma remove_prefix_before_separator (prefixes : list string) (a b : string) :
  Forall (fun prefix => has_char ":" prefix = false) prefixes ->
  remove_prefix prefixes (a +:+ String ":" b)
  = remove_prefix prefixes a +:+ String ":" b.
Proof.
  induction 1 as [|prefix prefixes Hno _ IH]; [reflexivity |].
  simpl. rewrite (startswith_before_separator a b prefix Hno).
  destruct (startswith a prefix) eqn:Hstart; [| exact IH].
  now apply drop_prefix_append.
Qed.

Lemma take_until_cons (p : ascii -> bool) (c : ascii) (s : string) :
  take_until p (String c s) = if p c then "" else String c (take_until p s).
Proof. reflexivity. Qed.

Lemma before_separator (a b : string) : before ":" (a +:+ String ":" b) = before ":" a.
Proof.
  unfold before. induction a as [|c a IH]; [reflexivity |].
  rewrite append_cons, !take_until_cons.
  destruct (Ascii.eqb ":" c); [reflexivity |]. now rewrite IH.
Qed.

Lemma normalize_domain_ignores_port (host port : string) :
  normalize_domain (host +:+ ":" +:+ port) = normalize_domain host.
Proof.
  unfold normalize_domain.
  change (":" +:+ port) with (String ":" port).
  rewrite lower_append.
  change (lower (String ":" port)) with (String ":" (lower port)).
  rewrite remove_prefix_before_separator.
  - apply before_separator.
  - unfold prefixes_to_remove. repeat constructor.
Qed.

(** X11. The trust decision does not depend on the port or on the case of
    the host: two URLs that parse, the authority of one being that of the
    other with [:port] appended, or equal to it up to letter case, get
    the same answer and the same reason. *)
Theorem trust_ignores_port_and_case (url url' : string)
    (parsed parsed' : ParseResult) (port : string) :
  urlparse url = Ok parsed -> urlparse url' = Ok parsed' ->
  netloc parsed' = netloc parsed +:+ ":" +:+ port \/
  lower (netloc parsed') = lower (netloc parsed) ->
  is_trusted_domain url' = is_trusted_domain url.
Proof.
  intros H H' Hsame. apply (is_trusted_domain_by_host url' url parsed' parsed H' H).
  destruct Hsame as [-> | Hcase].
  - apply normalize_domain_ignores_port.
  - unfold normalize_domain. now rewrite Hcase.
Qed.

(** *** The validator in front of [predict_url] *)

Lemma rstrip_cons (c : ascii) (s : string) :
  rstrip (String c s)
  = match rstrip s with
    | "" => if is_space c then "" else String c ""
    | rest => String c rest
    end.
Proof. reflexivity. Qed.

Lemma rstrip_idempotent (s : string) : rstrip (rstrip s) = rstrip s.
Proof.
  induction s as [|c s IH]; [reflexivity |].
  rewrite rstrip_cons. destruct (rstrip s) as [|d r] eqn:Hr.
  - destruct (is_space c) eqn:Hc; [reflexivity |].
    rewrite rstrip_cons. simpl rstrip. now rewrite Hc.
  - rewrite rstrip_cons, IH. reflexivity.
Qed.

(** What is left of a string that does not start with a space still
    starts with the same character. *)
Lemma rstrip_keeps_head (c : ascii) (s : string) :
  is_space c = false -> exists r, rstrip (String c s) = String c r.
Proof.
  intros Hc. rewrite rstrip_cons. destruct (rstrip s); [rewrite Hc |]; eauto.
Qed.

Lemma lstrip_head (s : string) :
  lstrip is_space s = "" \/
  exists c r, lstrip is_space s = String c r /\ is_space c = false.
Proof.
  induction s as [|c s IH]; [left; reflexivity |].
  simpl. destruct (is_space c) eqn:Hc; [exact IH |]. right. eauto.
Qed.

Lemma lstrip_strip (s : string) : lstrip is_space (strip s) = strip s.
Proof.
  unfold strip. destruct (lstrip_head s) as [-> | (c & r & -> & Hc)]; [reflexivity |].
  destruct (rstrip_keeps_head c r Hc) as (r' & ->). simpl. now rewrite Hc.
Qed.

Lemma strip_idempotent (s : string) : strip (strip s) = strip s.
Proof.
  unfold strip at 1. rewrite lstrip_strip. unfold strip. apply rstrip_idempotent.
Qed.

Lemma rstrip_append (a b : string) :
  rstrip b <> "" -> rstrip (a +:+ b) = a +:+ rstrip b.
Proof.
  intros Hb. induction a as [|c a IH]; [reflexivity |].
  rewrite !append_cons, rstrip_cons, IH.
  destruct (a +:+ rstrip b) as [|d r] eqn:Hr; [| reflexivity].
  destruct a; [| discriminate]. contradiction.
Qed.

Lemma strip_http_prefixed (s : string) :
  strip s <> "" -> strip ("http://" +:+ strip s) = "http://" +:+ strip s.
Proof.
  intros Hs.
  assert (Hr : rstrip (strip s) = strip s) by (unfold strip; apply rstrip_idempotent).
  unfold strip at 1.
  change (lstrip is_space ("http://" +:+ strip s)) with ("http://" +:+ strip s).
  rewrite rstrip_append; rewrite Hr; [reflexivity | exact Hs].
Qed.

(** the check of the parse result inside the validator's [try] *)
Lemma validate_url_check (u : string) :
  let check :=
    try_except
      (parsed ← urlparse u;
       if String.eqb (netloc parsed) "" then Raise ValueError else Ok tt)
      (fun _ => Raise ValueError) in
  (check = Ok tt /\ exists parsed, urlparse u = Ok parsed /\ netloc parsed <> "") \/
  (check = Raise ValueError /\
   (raises (urlparse u) = true \/ exists parsed, urlparse u = Ok parsed /\ netloc parsed = "")).
Proof.
  cbv zeta. unfold try_except, mbind, result_bind.
  destruct (urlparse u) as [parsed|e]; [| right; split; [reflexivity | left; reflexivity]].
  destruct (String.eqb (netloc parsed) "") eqn:Hnet.
  - apply String.eqb_eq in Hnet. right. split; [reflexivity | right; eauto].
  - apply String.eqb_neq in Hnet. left. split; [reflexivity | eauto].
Qed.

Lemma validate_url_accepts (v v' : string) :
  validate_url v = Ok v' <->
  strip v <> "" /\ v' = with_http_prefix (strip v) /\
  exists parsed, urlparse v' = Ok parsed /\ netloc parsed <> "".
Proof.
  unfold validate_url. cbv zeta.
  assert (Hprefixed : (if negb (has_http_prefix (strip v))
                       then "http://" +:+ strip v else strip v)
                      = with_http_prefix (strip v)).
  { unfold with_http_prefix. destruct (has_http_prefix (strip v)); reflexivity. }
  rewrite Hprefixed.
  destruct (String.eqb (strip v) "") eqn:Hempty.
  - apply String.eqb_eq in Hempty. split; [discriminate | intros [H _]; contradiction].
  - apply String.eqb_neq in Hempty.
    destruct (validate_url_check (with_http_prefix (strip v)))
      as [[Hcheck Hparse] | [Hcheck Hbad]];
      cbv zeta in Hcheck; rewrite Hcheck; unfold mbind, result_bind.
    + split.
      * intros [= <-]. auto.
      * intros (_ & -> & _). reflexivity.
    + split; [discriminate |].
      intros (_ & -> & parsed & Hp & Hn). exfalso.
      destruct Hbad as [Hraise | (parsed' & Hp' & Hn')].
      * rewrite Hp in Hraise. discriminate.
      * rewrite Hp in Hp'. injection Hp' as <-. contradiction.
Qed.

Lemma with_http_prefix_has_prefix (v : string) :
  has_http_prefix (with_http_prefix v) = true.
Proof.
  unfold with_http_prefix. destruct (has_http_prefix v) eqn:H; [exact H |].
  unfold has_http_prefix. now rewrite startswith_append.
Qed.

Lemma strip_with_http_prefix (v : string) :
  strip v <> "" -> strip (with_http_prefix (strip v)) = with_http_prefix (strip v).
Proof.
  intros Hv. unfold with_http_prefix.
  destruct (has_http_prefix (strip v)); [apply strip_idempotent |].
  now apply strip_http_prefixed.
Qed.

(** X12. A URL that the validator accepts comes out with surrounding
    white space removed and [http://] put in front unless it already began
    with [http://] or [https://]; the result begins with one of the two,
    has no white space at either end, and parses with an authority that is
    not empty. *)
Theorem validate_url_result (v v' : string) :
  validate_url v = Ok v' ->
  v' = (if has_http_prefix (strip v) then strip v else "http://" +:+ strip v) /\
  has_http_prefix v' = true /\
  strip v' = v' /\
  exists parsed, urlparse v' = Ok parsed /\ netloc parsed <> "".
Proof.
  intros H. apply validate_url_accepts in H as (Hne & -> & Hparse).
  split; [reflexivity |]. split; [apply with_http_prefix_has_prefix |].
  split; [now apply strip_with_http_prefix | exact Hparse].
Qed.

(** X13. Validating is idempotent: a URL that the validator returned is
    accepted again and returned unchanged. *)
Theorem validate_url_idempotent (v v' : string) :
  validate_url v = Ok v' -> validate_url v' = Ok v'.
Proof.
  intros H. apply validate_url_accepts in H as (Hne & -> & Hparse).
  apply validate_url_accepts.
  rewrite (strip_with_http_prefix v Hne).
  assert (Hself : with_http_prefix (with_http_prefix (strip v))
                  = with_http_prefix (strip v)).
  { unfold with_http_prefix at 1. now rewrite with_http_prefix_has_prefix. }
  rewrite Hself. split; [| split; [reflexivity | exact Hparse]].
  unfold with_http_prefix. destruct (has_http_prefix (strip v)); [exact Hne |].
  discriminate.
Qed.

(** X14. The validator raises nothing but [ValueError], and it rejects
    every input that is empty or only white space, as well as every input
    whose prefixed form [urlparse] rejects or parses without an
    authority. *)
Theorem validate_url_rejections (v : string) :
  (forall e, validate_url v = Raise e -> e = ValueError) /\
  (strip v = "" -> validate_url v = Raise ValueError) /\
  (raises (urlparse (with_http_prefix (strip v))) = true ->
     validate_url v = Raise ValueError) /\
  (forall parsed, urlparse (with_http_prefix (strip v)) = Ok parsed ->
     netloc parsed = "" -> validate_url v = Raise ValueError).
Proof.
  assert (Hprefixed : (if negb (has_http_prefix (strip v))
                       then "http://" +:+ strip v else strip v)
                      = with_http_prefix (strip v)).
  { unfold with_http_prefix. destruct (has_http_prefix (strip v)); reflexivity. }
  unfold validate_url. cbv zeta. rewrite Hprefixed.
  destruct (String.eqb (strip v) "") eqn:Hempty.
  - repeat split; intros; congruence.
  - apply String.eqb_neq in Hempty.
    destruct (validate_url_check (with_http_prefix (strip v)))
      as [[Hcheck (parsed & Hp & Hn)] | [Hcheck Hbad]];
      cbv zeta in Hcheck; rewrite Hcheck; unfold mbind, result_bind.
    + repeat split; intros; try discriminate; try contradiction.
      * rewrite Hp in H. discriminate.
      * rewrite Hp in H. injection H as <-. contradiction.
    + repeat split; intros; congruence.
Qed.

(** *** The earlier extractor *)

Lemma sum_counts_append (a b url : string) :
  sum_counts (a +:+ b) url = sum_counts a url + sum_counts b url.
Proof.
  induction a as [|c a IH]; [reflexivity |].
  rewrite append_cons. simpl. rewrite IH. lia.
Qed.

(** reading a key off a mapping written as a chain of inserts *)
Ltac lookup_inserts :=
  repeat (rewrite lookup_insert_eq || rewrite lookup_insert_ne by discriminate).

(** X15. The extractor of [features_old.py] against the present one.
    Where [urlparse] raises, the old one lets the exception through and
    the present one returns the all-zero mapping.  Where the URL parses,
    both give the same five keys, the same [URL_Length], [Num_Subdomains]
    and [Has_HTTPS], and the old [Special_Chars] and [Suspicious_Keywords]
    are at most the present ones, which count three more characters and
    ten more keywords. *)
Theorem old_extractor_against_present (url : string) :
  (forall e, urlparse url = Raise e ->
     extract_features_old url = Raise e /\ extract_features url = Ok zero_features) /\
  (forall parsed, urlparse url = Ok parsed ->
     exists (old : gmap string Z) (present : gmap string Q),
       extract_features_old url = Ok old /\
       extract_features url = Ok present /\
       dom old = dom present /\
       (forall key, In key ["URL_Length"; "Num_Subdomains"; "Has_HTTPS"] ->
          present !! key = float <$> old !! key) /\
       (forall key, In key ["Special_Chars"; "Suspicious_Keywords"] ->
          exists a b, old !! key = Some a /\ present !! key = Some (float b) /\ a <= b)).
Proof.
  split.
  - intros e He. unfold extract_features_old, extract_features. rewrite He.
    split; reflexivity.
  - intros parsed Hp. unfold extract_features_old, extract_features. rewrite Hp.
    unfold try_except, mbind, result_bind. cbv zeta.
    do 2 eexists. split; [reflexivity |]. split; [reflexivity |].
    split; [| split].
    + rewrite !dom_insert_L, !dom_empty_L. reflexivity.
    + intros key Hin. simpl in Hin.
      destruct Hin as [<- | [<- | [<- | []]]];
        lookup_inserts;
        cbn [fmap option_fmap option_map]; f_equal.
      * pose proof (count_nonneg "." (netloc parsed)) as Hdots.
        destruct (String.eqb (netloc parsed) "") eqn:Hnet; cbn [negb].
        -- apply String.eqb_eq in Hnet. rewrite Hnet. reflexivity.
        -- destruct (0 <? count "." (netloc parsed)) eqn:Hpos.
           ++ apply Z.ltb_lt in Hpos. f_equal. lia.
           ++ apply Z.ltb_ge in Hpos. f_equal. lia.
      * destruct (String.eqb (scheme parsed) "https"); reflexivity.
    + intros key Hin. simpl in Hin.
      destruct Hin as [<- | [<- | []]];
        lookup_inserts;
        do 2 eexists; (split; [reflexivity |]); (split; [reflexivity |]).
      * change "@/?=_-&%#" with ("@/?=_-" +:+ "&%#").
        rewrite sum_counts_append.
        pose proof (sum_counts_nonneg "&%#" url). lia.
      * unfold count_keywords.
        change suspicious_keywords
          with (List.app suspicious_keywords_old
                  ["suspended"; "limited"; "expire"; "urgent"; "immediate";
                   "click"; "here"; "now"; "free"; "winner"]).
        rewrite List.filter_app, List.length_app. lia.
Qed.

(** *** More on the rule scorer *)

(** No penalty is negative, so each one alone is a lower bound of the
    score. *)
Lemma rules_score_at_least (features : gmap string Q) (url : string) :
  exists score,
    rules_score features url = Ok score /\
    https_penalty (get features "Has_HTTPS" (float 1)) <= score /\
    ip_address_penalty url <= score /\
    tld_penalty (lower url) <= score /\
    non_ascii_penalty url <= score.
Proof.
  rewrite rules_score_sum. eexists. split; [reflexivity |].
  assert (H1 : forall x, 0 <= length_penalty x)
    by (intros; unfold length_penalty; repeat case_match; lia).
  assert (H2 : forall x y, 0 <= special_chars_penalty x y)
    by (intros; unfold special_chars_penalty; repeat case_match; lia).
  assert (H3 : forall x, 0 <= keywords_penalty x)
    by (intros; unfold keywords_penalty; repeat case_match; lia).
  assert (H4 : forall x, 0 <= https_penalty x)
    by (intros; unfold https_penalty; repeat case_match; lia).
  assert (H5 : forall x, 0 <= subdomains_penalty x)
    by (intros; unfold subdomains_penalty; repeat case_match; lia).
  assert (H6 : forall x, 0 <= ip_address_penalty x)
    by (intros; unfold ip_address_penalty; repeat case_match; lia).
  assert (H7 : forall x, 0 <= tld_penalty x)
    by (intros; unfold tld_penalty; repeat case_match; lia).
  assert (H8 : forall x, 0 <= non_ascii_penalty x)
    by (intros; unfold non_ascii_penalty; repeat case_match; lia).
  match goal with
  | |- ?p4 <= ?a + ?b + ?c + ?d + ?e + ?f + ?g + ?h /\ _ =>
      match a with length_penalty ?x => pose proof (H1 x) end;
      match b with special_chars_penalty ?x ?y => pose proof (H2 x y) end;
      match c with keywords_penalty ?x => pose proof (H3 x) end;
      match d with https_penalty ?x => pose proof (H4 x) end;
      match e with subdomains_penalty ?x => pose proof (H5 x) end;
      match f with ip_address_penalty ?x => pose proof (H6 x) end;
      match g with tld_penalty ?x => pose proof (H7 x) end;
      match h with non_ascii_penalty ?x => pose proof (H8 x) end
  end.
  lia.
Qed.

(** X16. The suspicious-TLD penalty looks for the text anywhere in the
    URL, not at the end of the host: a URL that holds [.tk], [.ml],
    [.ga], [.cf], [.click] or [.download] at any place, in the path or
    the query as well, carries the 15 points, whatever its features. *)
Theorem suspicious_tld_text_anywhere (features : gmap string Q)
    (before after tld : string) :
  In tld suspicious_tlds ->
  tld_penalty (lower (before +:+ tld +:+ after)) = 15 /\
  exists score,
    rules_score features (before +:+ tld +:+ after) = Ok score /\ 15 <= score.
Proof.
  intros Hin.
  assert (Hlow : lower tld = tld).
  { unfold suspicious_tlds in Hin. simpl in Hin.
    destruct Hin as [<- | [<- | [<- | [<- | [<- | [<- | []]]]]]]; reflexivity. }
  assert (Hpen : tld_penalty (lower (before +:+ tld +:+ after)) = 15).
  { unfold tld_penalty.
    assert (Hex : List.existsb (contains (lower (before +:+ tld +:+ after)))
                    suspicious_tlds = true).
    { apply List.existsb_exists. exists tld. split; [exact Hin |].
      rewrite !lower_append, Hlow. apply contains_later, contains_here. }
    now rewrite Hex. }
  split; [exact Hpen |].
  destruct (rules_score_at_least features (before +:+ tld +:+ after))
    as (score & Hs & _ & _ & Htld & _).
  exists score. split; [exact Hs |]. rewrite Hpen in Htld. exact Htld.
Qed.

Lemma special_chars_penalty_monotone (s s' d : Q) :
  (s <= s')%Q -> (1 <= d)%Q ->
  special_chars_penalty (s / d) s <= special_chars_penalty (s' / d) s'.
Proof.
  intros Hle Hd.
  assert (Hratio : (s / d <= s' / d)%Q).
  { unfold Qdiv. apply Qmult_le_compat_r; [exact Hle |].
    apply Qlt_le_weak, Qinv_lt_0_compat. lra. }
  set (r := (s / d)%Q) in *. set (r' := (s' / d)%Q) in *.
  unfold special_chars_penalty, float.
  destruct (Qgt_bool r (4 # 10)) eqn:R;
  destruct (Qgt_bool s (inject_Z 20)) eqn:S20;
  destruct (Qgt_bool s (inject_Z 15)) eqn:S15;
  destruct (Qgt_bool r' (4 # 10)) eqn:R';
  destruct (Qgt_bool s' (inject_Z 20)) eqn:S20';
  destruct (Qgt_bool s' (inject_Z 15)) eqn:S15';
  try lia;
  rewrite ?Qgt_bool_true, ?Qgt_bool_false in *;
  simpl in *; lra.
Qed.

Lemma subdomains_penalty_monotone (n n' : Q) :
  (n <= n')%Q -> subdomains_penalty n <= subdomains_penalty n'.
Proof.
  intros Hle. unfold subdomains_penalty, float.
  destruct (Qgt_bool n (inject_Z 6)) eqn:N6;
  destruct (Qgt_bool n (inject_Z 4)) eqn:N4;
  destruct (Qgt_bool n' (inject_Z 6)) eqn:N6';
  destruct (Qgt_bool n' (inject_Z 4)) eqn:N4';
  try lia;
  rewrite ?Qgt_bool_true, ?Qgt_bool_false in *;
  simpl in *; lra.
Qed.

(** X17. With the URL and the other features held fixed, the rule
    scorer's risk score never goes down when [Special_Chars] or
    [Num_Subdomains] goes up. *)
Theorem rules_risk_monotone_in_counts (features : gmap string Q) (url : string)
    (s s' n n' : Q) :
  (s <= s')%Q -> (n <= n')%Q ->
  exists verdict verdict',
    predict_with_rules
      (<["Special_Chars" := s]> (<["Num_Subdomains" := n]> features)) url = Ok verdict /\
    predict_with_rules
      (<["Special_Chars" := s']> (<["Num_Subdomains" := n']> features)) url = Ok verdict' /\
    risk_of verdict <= risk_of verdict'.
Proof.
  intros Hs Hn.
  destruct (is_trusted_domain_ok url) as (trusted & reason & Ht).
  unfold predict_with_rules. rewrite Ht. unfold mbind at 1 3, result_bind.
  destruct trusted.
  - do 2 eexists. split; [reflexivity |]. split; [reflexivity |].
    unfold risk_of. simpl. lia.
  - rewrite !rules_score_sum. unfold mbind, result_bind.
    do 2 eexists. split; [reflexivity |]. split; [reflexivity |].
    rewrite !rules_verdict_risk. unfold get.
    lookup_inserts.
    pose proof (subdomains_penalty_monotone n n' Hn).
    match goal with
    | |- context [py_max ?l (float 1)] =>
        pose proof (special_chars_penalty_monotone s s' (py_max l (float 1)) Hs
                      (py_max_one_lower l))
    end.
    lia.
Qed.

(** X18. Only the value 0 of [Has_HTTPS] is penalised: with every other
    value the score is 20 points lower than with 0, the rest being
    equal. *)
Theorem https_penalty_only_at_zero (features : gmap string Q) (url : string) (h : Q) :
  ~ (h == 0)%Q ->
  exists score,
    rules_score (<["Has_HTTPS" := h]> features) url = Ok score /\
    rules_score (<["Has_HTTPS" := float 0]> features) url = Ok (score + 20).
Proof.
  intros Hh. rewrite !rules_score_sum. eexists. split; [reflexivity |].
  unfold get. lookup_inserts.
  f_equal. unfold https_penalty.
  assert (Hne : Qeq_bool h (float 0) = false).
  { apply not_true_iff_false. rewrite Qeq_bool_iff. exact Hh. }
  rewrite Hne. change (Qeq_bool (float 0) (float 0)) with true. cbv iota. lia.
Qed.

(** X21. The academic rule is a substring test on the [domain] that the
    code computes (the authority with its userinfo, lower-cased, one
    leading prefix removed, cut at the first colon): a URL that parses
    and whose [domain] holds [.ac.] at any place, not only before a
    country code at the end, is trusted. *)
Theorem domain_containing_ac_is_trusted (url : string) (parsed : ParseResult) :
  urlparse url = Ok parsed ->
  contains (normalize_domain (netloc parsed)) ".ac." = true ->
  exists reason, is_trusted_domain url = Ok (true, reason).
Proof.
  intros Hparse Hac. unfold is_trusted_domain. rewrite Hparse.
  unfold try_except, mbind, result_bind. cbv zeta. rewrite Hac.
  destruct (List.find _ TRUSTED_DOMAINS); [eauto |].
  destruct (List.find _ MALAYSIAN_EDU_DOMAINS); [eauto |].
  destruct (List.find _ TRUSTED_TLD_PATTERNS); [eauto |].
  repeat match goal with
         | |- context [if ?b then _ else _] => destruct b
         end; eauto.
Qed.

(** *** The host without userinfo *)

Lemma after_last_absent (c : ascii) (s : string) :
  has_char c s = false -> after_last c s = s.
Proof.
  unfold has_char. destruct s as [| a s']; [reflexivity |].
  cbn [count after_last]. intros H. apply Z.ltb_ge in H.
  pose proof (count_nonneg c s') as Hc.
  destruct (Ascii.eqb a c); [lia |].
  unfold has_char.
  replace (0 <? count c s') with false by (symmetry; apply Z.ltb_ge; lia).
  reflexivity.
Qed.

Lemma spec_normalized_host_without_userinfo (netloc : string) :
  has_char "@" netloc = false ->
  spec_normalized_host netloc = normalize_domain netloc.
Proof.
  intros H. unfold spec_normalized_host, spec_hostinfo.
  now rewrite after_last_absent.
Qed.

(** X22. For a URL that parses and whose authority holds no [@], that is
    no userinfo, the rule for educational-sounding names is as the
    specification words it: when the normalized host (the authority
    lower-cased, one leading prefix removed, cut at the first colon)
    contains one of [university], [univ], [college], [school], [academy]
    and none of [login], [secure], [verify], [update], the URL is
    trusted. *)
Theorem educational_sounding_host_without_userinfo (url : string)
    (parsed : ParseResult) :
  urlparse url = Ok parsed ->
  has_char "@" (netloc parsed) = false ->
  let host := spec_normalized_host (netloc parsed) in
  List.existsb (contains host) university_keywords = true ->
  List.existsb (contains host) suspicious_host_words = false ->
  exists reason, is_trusted_domain url = Ok (true, reason).
Proof.
  intros Hparse Hno host. subst host.
  rewrite (spec_normalized_host_without_userinfo _ Hno).
  intros Huniv Hsusp.
  unfold is_trusted_domain. rewrite Hparse.
  unfold try_except, mbind, result_bind. cbv zeta.
  rewrite Huniv, Hsusp.
  repeat case_match; simplify_eq; eauto.
Qed.

End Predictor.

(** ** The parser and the patterns on examples *)

Example urlparse_https :
  Urllib.urlparse "https://www.Example.com:8080/a?b#c"
  = Ok (mkParseResult "https" "www.Example.com:8080").
Proof. reflexivity. Qed.

Example urlparse_no_scheme :
  Urllib.urlparse "now///" = Ok (mkParseResult "" "").
Proof. reflexivity. Qed.

Example urlparse_scheme_rules :
  Urllib.urlparse "HTTPS://x" = Ok (mkParseResult "https" "x")
  /\ Urllib.urlparse "1http://x" = Ok (mkParseResult "" "")
  /\ Urllib.urlparse "a+b.c://h/p" = Ok (mkParseResult "a+b.c" "h")
  /\ Urllib.urlparse "//host" = Ok (mkParseResult "" "host")
  /\ Urllib.urlparse "http:/x" = Ok (mkParseResult "http" "").
Proof. repeat split; reflexivity. Qed.

Example urlparse_bad_bracket :
  Urllib.urlparse "http://[" = Raise ValueError.
Proof. reflexivity. Qed.

Example search_suffix :
  Re.search (Re.seqs [Re.lit ".edu"; Re.Dollar]) "mit.edu" = true
  /\ Re.search (Re.seqs [Re.lit ".edu"; Re.Dollar]) "mit.edu.evil.com" = false.
Proof. split; reflexivity. Qed.

Example search_plus :
  Re.search (Re.seqs [Re.lit ".univ-"; Re.plus (Re.Cls "a" "z"); Re.lit ".fr"; Re.Dollar])
    "www.univ-lyon.fr" = true.
Proof. reflexivity. Qed.

Example ip_pattern_found :
  Re.search ip_address_pattern "http://192.168.0.1/login" = true
  /\ Re.search ip_address_pattern "1.2.3.4.5" = true.
Proof. split; reflexivity. Qed.

Example ip_pattern_needs_boundary :
  Re.search ip_address_pattern "http://a1.2.3.4/" = false
  /\ Re.search ip_address_pattern "http://1.2.3.4567/" = false
  /\ Re.search ip_address_pattern "_1.2.3.4" = false
  /\ Re.search ip_address_pattern "v1.2.3" = false.
Proof. repeat split; reflexivity. Qed.

(** The trust matcher on the specification's three sample URLs. *)
Example is_trusted_domain_samples :
  is_trusted_domain Urllib.urlparse "https://www.google.com/search"
    = Ok (true, "Major trusted domain: google.com")
  /\ is_trusted_domain Urllib.urlparse "https://portal.example.edu"
    = Ok (true, "Educational/Government domain pattern: \.edu$")
  /\ is_trusted_domain Urllib.urlparse "https://secure-login.randomsite.tk"
    = Ok (false, "Not in trusted lists").
Proof. repeat split; vm_compute; reflexivity. Qed.

(** The extractor on the specification's sample URL: 24 characters, of
    which five special: three [/], one [?] and one [=]. *)
Example extract_features_sample :
  extract_features Urllib.urlparse "https://a.b.com/path?x=1"
  = Ok (<["URL_Length" := 24%Q]> (
        <["Special_Chars" := 5%Q]> (
        <["Num_Subdomains" := 1%Q]> (
        <["Suspicious_Keywords" := 0%Q]> (
        <["Has_HTTPS" := 1%Q]> ∅))))).
Proof. vm_compute. reflexivity. Qed.

(** The orchestrator on the empty string: no HTTPS, risk score 20. *)
Example predict_empty_string :
  predict Urllib.urlparse false rule_based ""
  = Ok (Safe, 90%Q, 20, zero_features).
Proof. vm_compute. reflexivity. Qed.

(** ** The claims at concrete inputs *)

(** C1 at [https://google.com], with a booster that would answer 0.9. *)
Lemma trusted_url_fixed_verdict_witness :
  is_trusted_domain Urllib.urlparse "https://google.com"
    = Ok (true, "Major trusted domain: google.com")
  /\ predict_with_xgboost Urllib.urlparse true (with_model (constant_booster (9 # 10)))
       ∅ "https://google.com" = Ok (Safe, PyNum.float 97, 3)
  /\ predict_with_rules Urllib.urlparse ∅ "https://google.com"
       = Ok (Safe, PyNum.float 98, 2).
Proof.
  assert (Ht : is_trusted_domain Urllib.urlparse "https://google.com"
               = Ok (true, "Major trusted domain: google.com"))
    by (vm_compute; reflexivity).
  split; [exact Ht |].
  destruct (trusted_url_fixed_verdict Urllib.urlparse true
              (with_model (constant_booster (9 # 10))) ∅ _ _ Ht) as (Hx & Hr & _).
  split; [apply Hx; reflexivity | exact Hr].
Defined.

(** C2 at a synthetic features mapping with score 70. *)
Lemma rules_final_decision_witness :
  is_trusted_domain Urllib.urlparse "http://example.org"
    = Ok (false, "Not in trusted lists")
  /\ exists verdict,
       predict_with_rules Urllib.urlparse features_scoring_70 "http://example.org"
         = Ok verdict
       /\ risk_of verdict = 70 /\ label_of verdict = Phishing
       /\ confidence_of verdict = PyNum.float 70.
Proof.
  assert (Ht : is_trusted_domain Urllib.urlparse "http://example.org"
               = Ok (false, "Not in trusted lists"))
    by (vm_compute; reflexivity).
  split; [exact Ht |].
  destruct (rules_final_decision Urllib.urlparse features_scoring_70 _ _ Ht)
    as (score & verdict & Hs & Hp & Hr & H70 & _).
  assert (Hscore : score = 70).
  { vm_compute in Hs. injection Hs as <-. reflexivity. }
  subst score. change (Z.min 70 100) with 70 in Hr.
  exists verdict. split; [exact Hp |]. split; [exact Hr |].
  destruct H70 as [Hl Hc]; [rewrite Hr; discriminate |].
  split; [exact Hl |]. rewrite Hc, Hr. reflexivity.
Defined.

(** C3 in the arithmetic without rounding, at a booster answering
    15/16 = 0.9375, where [p * 100] is 1500/16 = 93.75 and exact in every binary format: the
    risk score is 93. *)
Lemma xgboost_float_decision_bands_witness :
  is_trusted_domain Urllib.urlparse "http://example.org"
    = Ok (false, "Not in trusted lists")
  /\ fp_value (fp_mul (A := exact_arith) (15 # 16) 100) = Some (1500 # 16)
  /\ predict_with_xgboost_float (A := exact_arith) Urllib.urlparse true
       (Some (constant_booster (15 # 16))) zero_features "http://example.org"
     = Ok (Phishing, Computed (A := exact_arith) ((15 # 16) * PyNum.float 100)%Q, 93).
Proof.
  assert (Ht : is_trusted_domain Urllib.urlparse "http://example.org"
               = Ok (false, "Not in trusted lists"))
    by (vm_compute; reflexivity).
  assert (Hproduct : fp_value (fp_mul (A := exact_arith) (15 # 16) 100)
                     = Some (1500 # 16)) by reflexivity.
  split; [exact Ht |]. split; [exact Hproduct |].
  destruct (xgboost_float_decision_bands Urllib.urlparse true exact_arith
              (Some (constant_booster (15 # 16))) zero_features
              "http://example.org" "Not in trusted lists"
              (repeat (PyNum.float 0) 5) (15 # 16) (1500 # 16)
              eq_refl Ht eq_refl eq_refl Hproduct)
    as (label & confidence & Hp & _ & Hphish & _).
  destruct (Hphish eq_refl) as (-> & -> & _).
  exact Hp.
Defined.

(** C4, amended, at keyword counts 1 and 2. *)
Lemma rules_risk_monotone_in_keywords_witness :
  (1 <= 2)%Q
  /\ exists verdict verdict',
       predict_with_rules Urllib.urlparse (<["Suspicious_Keywords" := 1%Q]> ∅)
         "http://example.org" = Ok verdict
       /\ predict_with_rules Urllib.urlparse (<["Suspicious_Keywords" := 2%Q]> ∅)
         "http://example.org" = Ok verdict'
       /\ risk_of verdict <= risk_of verdict'.
Proof.
  assert (Hle : (1 <= 2)%Q) by discriminate.
  split; [exact Hle |].
  exact (rules_risk_monotone_in_keywords Urllib.urlparse ∅ "http://example.org" 1 2 Hle).
Defined.

(** C6 at a URL that [urlparse] rejects. *)
Lemma extract_features_total_and_shaped_witness :
  Urllib.urlparse "http://[" = Raise ValueError
  /\ extract_features Urllib.urlparse "http://[" = Ok zero_features.
Proof.
  split; [reflexivity |].
  destruct (extract_features_total_and_shaped Urllib.urlparse "http://[")
    as (features & Hf & _ & _ & Hfail & _).
  rewrite Hf. f_equal. apply (Hfail ValueError). reflexivity.
Defined.

(** C7 at a [try] block that raises. *)
Lemma predict_never_raises_witness :
  raises (Raise ValueError : result (label * Q * Z * gmap string Q)) = true
  /\ exists features,
       extract_features Urllib.urlparse "http://example.org" = Ok features
       /\ try_except (Raise ValueError) (predict_except Urllib.urlparse "http://example.org")
          = Ok (Safe, PyNum.float 75, 25, features).
Proof.
  split; [reflexivity |].
  destruct (predict_never_raises Urllib.urlparse true rule_based "http://example.org")
    as (_ & (features & Hf & _ & Hbody) & _).
  exists features. split; [exact Hf |]. apply Hbody. reflexivity.
Defined.

(** C9 at the empty mapping. *)
Lemma rules_missing_feature_defaults_witness :
  (∅ : gmap string Q) !! "Has_HTTPS" = None
  /\ rules_score ∅ "http://example.org"
     = rules_score (<["Has_HTTPS" := PyNum.float 1]> ∅) "http://example.org"
  /\ rules_score ∅ "http://example.org"
     = rules_score (<["URL_Length" := PyNum.float 0]> ∅) "http://example.org"
  /\ rules_score ∅ "http://example.org" = Ok 0.
Proof.
  destruct (rules_missing_feature_defaults ∅ "http://example.org")
    as (Hhttps & Hother & Hempty).
  split; [reflexivity |].
  split; [apply Hhttps; reflexivity |].
  split; [apply Hother; [left; reflexivity | reflexivity] |].
  rewrite Hempty. reflexivity.
Defined.

(** ** Where the code departs from the specification's wording *)

(** C3, as stated, fails: for the probability 15/16 = 0.9375 the model
    scorer gives risk score [int(93.75) = 93], while [round(93.75)] is 94. *)
Lemma xgboost_risk_is_not_rounded :
  predict_with_xgboost Urllib.urlparse true (with_model (constant_booster (15 # 16)))
    zero_features "http://example.org"
    = Ok (Phishing, ((15 # 16) * PyNum.float 100)%Q, 93)
  /\ risk_of (xgboost_verdict (15 # 16)) = 93
  /\ spec_round ((15 # 16) * PyNum.float 100) = 94
  /\ ~ spec_model_risk_rounds.
Proof.
  split; [vm_compute; reflexivity |].
  split; [reflexivity |]. split; [reflexivity |].
  intros Hspec.
  specialize (Hspec (15 # 16)).
  assert (Hlow : (0 <= 15 # 16)%Q) by discriminate.
  assert (Hhigh : (15 # 16 <= 1)%Q) by discriminate.
  specialize (Hspec Hlow Hhigh). vm_compute in Hspec. discriminate.
Qed.

(** C8 fails on the code at [http://user:pw@myschool.org/].  The host of
    this URL is [myschool.org]: it contains [school] and none of the four
    excluded words, so the specification trusts it.  The code takes the
    whole authority [user:pw@myschool.org] for the host and cuts it at the
    first colon, the one inside the userinfo and not the one before a
    port: the [domain] it tests is [user], and the answer is not trusted.
    The same slip makes [http://accounts.google.com:x@evil.tk/login]
    trusted as a subdomain of [google.com], though its host is [evil.tk]. *)
Theorem userinfo_is_taken_for_the_host :
  Urllib.urlparse "http://user:pw@myschool.org/"
    = Ok (mkParseResult "http" "user:pw@myschool.org")
  /\ spec_normalized_host "user:pw@myschool.org" = "myschool.org"
  /\ List.existsb (PyStr.contains "myschool.org") university_keywords = true
  /\ List.existsb (PyStr.contains "myschool.org") suspicious_host_words = false
  /\ normalize_domain "user:pw@myschool.org" = "user"
  /\ is_trusted_domain Urllib.urlparse "http://user:pw@myschool.org/"
     = Ok (false, "Not in trusted lists")
  /\ ~ spec_educational_host_trusted Urllib.urlparse
  /\ spec_normalized_host "accounts.google.com:x@evil.tk" = "evil.tk"
  /\ is_trusted_domain Urllib.urlparse "http://accounts.google.com:x@evil.tk/login"
     = Ok (true, "Major trusted domain: google.com").
Proof.
  assert (Hparse : Urllib.urlparse "http://user:pw@myschool.org/"
                   = Ok (mkParseResult "http" "user:pw@myschool.org"))
    by reflexivity.
  assert (Hnot : is_trusted_domain Urllib.urlparse "http://user:pw@myschool.org/"
                 = Ok (false, "Not in trusted lists"))
    by (vm_compute; reflexivity).
  split; [exact Hparse |]. split; [reflexivity |]. split; [reflexivity |].
  split; [reflexivity |]. split; [reflexivity |]. split; [exact Hnot |].
  split.
  - intros Hspec.
    destruct (Hspec _ _ Hparse eq_refl eq_refl) as (reason & Hr).
    rewrite Hnot in Hr. discriminate.
  - split; [reflexivity | vm_compute; reflexivity].
Qed.

(** C4, as stated, fails: [http://a.b/?q=_&r=-#now] has 10 special
    characters in 23, a ratio above 0.4, and risk score 55; one more [now]
    put before the last makes it 10 in 26, a ratio below 0.4, the count-based
    bands do not fire either, the keyword count stays 1, and the risk score
    is 30. *)
Lemma keyword_insertion_lowers_risk :
  In "now" suspicious_keywords
  /\ rule_risk Urllib.urlparse ("http://a.b/?q=_&r=-#" +:+ "now") = Ok 55
  /\ rule_risk Urllib.urlparse ("http://a.b/?q=_&r=-#" +:+ "now" +:+ "now") = Ok 30
  /\ ~ spec_keyword_insertion_monotone Urllib.urlparse.
Proof.
  assert (Hin : In "now" suspicious_keywords).
  { unfold suspicious_keywords. do 17 right. left. reflexivity. }
  assert (H1 : rule_risk Urllib.urlparse ("http://a.b/?q=_&r=-#" +:+ "now") = Ok 55)
    by (vm_compute; reflexivity).
  assert (H2 : rule_risk Urllib.urlparse ("http://a.b/?q=_&r=-#" +:+ "now" +:+ "now") = Ok 30)
    by (vm_compute; reflexivity).
  repeat split; try assumption.
  intros Hspec.
  specialize (Hspec "http://a.b/?q=_&r=-#" "now" "now" 55 30 Hin H1 H2). lia.
Qed.

(** C5, as stated, fails: on the rule path the URL is not labelled
    Phishing, and its risk score is below 70. *)
Lemma paypal_url_is_not_flagged :
  ~ (exists confidence risk_score features,
       predict Urllib.urlparse false rule_based
         "https://paypal-secure-login.suspicious-domain.tk"
       = Ok (Phishing, confidence, risk_score, features)
       /\ 70 <= risk_score).
Proof.
  intros (confidence & risk_score & features & Hp & _).
  vm_compute in Hp. discriminate.
Qed.

(** C5, as the code has it.  On the rule path, whatever the predictor
    holds as a model, the URL
    [https://paypal-secure-login.suspicious-domain.tk] is not trusted and
    scores 30 for its three keywords plus 15 for the [.tk] it contains:
    label Safe, confidence 65, risk score 45. *)
Theorem paypal_url_rule_verdict (xgboost_installed : bool) (model : option Booster) :
  is_trusted_domain Urllib.urlparse "https://paypal-secure-login.suspicious-domain.tk"
    = Ok (false, "Not in trusted lists")
  /\ extract_features Urllib.urlparse "https://paypal-secure-login.suspicious-domain.tk"
    = Ok paypal_url_features
  /\ rules_score paypal_url_features "https://paypal-secure-login.suspicious-domain.tk"
    = Ok (30 + 15)
  /\ predict Urllib.urlparse xgboost_installed (mkPredictor model false)
       "https://paypal-secure-login.suspicious-domain.tk"
    = Ok (Safe, PyNum.float 65, 45, paypal_url_features).
Proof.
  assert (Hf : extract_features Urllib.urlparse
                 "https://paypal-secure-login.suspicious-domain.tk"
               = Ok paypal_url_features) by (vm_compute; reflexivity).
  assert (Hr : predict_with_rules Urllib.urlparse paypal_url_features
                 "https://paypal-secure-login.suspicious-domain.tk"
               = Ok (Safe, PyNum.float 65, 45)) by (vm_compute; reflexivity).
  split; [vm_compute; reflexivity |]. split; [exact Hf |].
  split; [vm_compute; reflexivity |].
  unfold predict, predict_try. rewrite Hf. unfold mbind at 1, result_bind.
  change (uses_model (mkPredictor model false)) with false. cbv iota.
  rewrite Hr. vm_compute. reflexivity.
Qed.

(** ** The validator with CPython's parser *)

Lemma startswith_empty (s : string) : PyStr.startswith s "" = true.
Proof. destruct s; reflexivity. Qed.

Lemma urlparse_https_prefixed (rest : string) :
  Urllib.urlparse ("https://" +:+ rest) = split_after_scheme "https" rest.
Proof.
  unfold Urllib.urlparse, Urllib.urlsplit, split_after_scheme.
  change (PyStr.lstrip Urllib.is_c0_control_or_space ("https://" +:+ rest))
    with ("https://" +:+ rest).
  change (PyStr.remove Urllib.is_unsafe_url_byte ("https://" +:+ rest))
    with ("https://" +:+ PyStr.remove Urllib.is_unsafe_url_byte rest).
  set (R := PyStr.remove Urllib.is_unsafe_url_byte rest).
  change (Urllib.split_scheme ("https://" +:+ R)) with ("https", "//" +:+ R).
  cbv zeta iota beta.
  change (PyStr.startswith ("//" +:+ R) "//") with (PyStr.startswith R "").
  rewrite startswith_empty. reflexivity.
Qed.

Lemma urlparse_http_prefixed (rest : string) :
  Urllib.urlparse ("http://" +:+ rest) = split_after_scheme "http" rest.
Proof.
  unfold Urllib.urlparse, Urllib.urlsplit, split_after_scheme.
  change (PyStr.lstrip Urllib.is_c0_control_or_space ("http://" +:+ rest))
    with ("http://" +:+ rest).
  change (PyStr.remove Urllib.is_unsafe_url_byte ("http://" +:+ rest))
    with ("http://" +:+ PyStr.remove Urllib.is_unsafe_url_byte rest).
  set (R := PyStr.remove Urllib.is_unsafe_url_byte rest).
  change (Urllib.split_scheme ("http://" +:+ R)) with ("http", "//" +:+ R).
  cbv zeta iota beta.
  change (PyStr.startswith ("//" +:+ R) "//") with (PyStr.startswith R "").
  rewrite startswith_empty. reflexivity.
Qed.

Lemma split_after_scheme_scheme (sch rest : string) (parsed : ParseResult) :
  split_after_scheme sch rest = Ok parsed -> scheme parsed = sch.
Proof.
  unfold split_after_scheme. cbv zeta.
  case_match; intros [= <-]; reflexivity.
Qed.

(** X19. With CPython's parser, the URL that the validator hands on is
    seen as HTTPS by the extractor exactly when the input, white space
    removed, begins with the lower-case text [https://].  Every other
    accepted input, a bare host name or an upper-case scheme included, is
    scored as plain HTTP: the score accumulated from its features holds
    the 20 points of the missing-HTTPS penalty, and when the URL is not
    trusted the rule scorer returns a risk score of at least 20.  A
    trusted URL is answered before any scoring, with risk score 2. *)
Theorem validated_url_https_feature (raw v' : string) :
  validate_url Urllib.urlparse raw = Ok v' ->
  exists features,
    extract_features Urllib.urlparse v' = Ok features /\
    features !! "URL_Length" = Some (PyNum.float (PyStr.len v')) /\
    features !! "Has_HTTPS"
      = Some (if PyStr.startswith (strip raw) "https://"
              then PyNum.float 1 else PyNum.float 0) /\
    (PyStr.startswith (strip raw) "https://" = false ->
       (exists score, rules_score features v' = Ok score /\ 20 <= score) /\
       (forall reason,
          is_trusted_domain Urllib.urlparse v' = Ok (false, reason) ->
          exists verdict,
            predict_with_rules Urllib.urlparse features v' = Ok verdict /\
            20 <= risk_of verdict <= 100) /\
       (forall reason,
          is_trusted_domain Urllib.urlparse v' = Ok (true, reason) ->
          predict_with_rules Urllib.urlparse features v'
          = Ok (Safe, PyNum.float 98, 2))).
Proof.
  intros H. apply validate_url_accepts in H as (Hne & -> & parsed & Hp & Hn).
  assert (Hscheme : String.eqb (scheme parsed) "https"
                    = PyStr.startswith (strip raw) "https://").
  { unfold with_http_prefix, has_http_prefix in Hp.
    destruct (PyStr.startswith (strip raw) "https://") eqn:Hs.
    - rewrite orb_true_r in Hp.
      destruct (startswith_inv _ _ Hs) as (rest & Hrest). rewrite Hrest in Hp.
      rewrite urlparse_https_prefixed in Hp.
      now rewrite (split_after_scheme_scheme _ _ _ Hp).
    - rewrite orb_false_r in Hp.
      destruct (PyStr.startswith (strip raw) "http://") eqn:Hh.
      + destruct (startswith_inv _ _ Hh) as (rest & Hrest). rewrite Hrest in Hp.
        rewrite urlparse_http_prefixed in Hp.
        now rewrite (split_after_scheme_scheme _ _ _ Hp).
      + rewrite urlparse_http_prefixed in Hp.
        now rewrite (split_after_scheme_scheme _ _ _ Hp). }
  unfold extract_features. rewrite Hp.
  unfold try_except, mbind, result_bind. cbv zeta. rewrite Hscheme.
  eexists. split; [reflexivity |]. split; [reflexivity |]. split; [reflexivity |].
  intros Hs. rewrite Hs.
  match goal with
  | |- (exists score, rules_score ?f ?u = Ok score /\ _) /\ _ =>
      destruct (rules_score_at_least f u) as (score & Hscore & Hhttps & _);
      set (features := f) in *
  end.
  assert (H20 : 20 <= score) by exact Hhttps.
  split; [exists score; split; [exact Hscore | exact H20] |]. split.
  - intros reason Hnot.
    destruct (predict_with_rules_untrusted Urllib.urlparse features _ _ Hnot)
      as (score' & Hscore' & Hverdict).
    rewrite Hscore in Hscore'. injection Hscore' as <-.
    exists (rules_verdict score). split; [exact Hverdict |].
    rewrite rules_verdict_risk. lia.
  - intros reason Htrusted. unfold predict_with_rules.
    rewrite Htrusted. reflexivity.
Qed.

(** ** The model scorer under IEEE arithmetic *)

(** the booster that answers the [float32] nearest to [c] for every row,
    in the [float32] arithmetic and widened for the [float64] one *)
Definition float32_booster (c : Q) : FloatBooster binary32_arith :=
  fun _ => Ok (IEEE.float32 c).
Definition widened_float32_booster (c : Q) : FloatBooster binary64_arith :=
  fun _ => Ok (IEEE.cast 53 1024 (IEEE.float32 c)).

(** X23. What the model scorer returns for a probability depends on the
    floating-point arithmetic.  The [float32] nearest 0.9 is
    0.89999997615814: in [float32] arithmetic its product with 100 rounds
    to 90 and the risk score is 90; in [float64] arithmetic the product is
    89.9999976158142 and the risk score is 89.  The [float32] nearest 0.3
    is 0.30000001192093: in [float32] arithmetic it is not above the
    literal [0.3], which converts to the same value, and the verdict is
    that of the lowest band, with confidence 70; in [float64] arithmetic
    it is above the literal and the verdict is that of the middle band,
    with confidence 59.499998986721.  For 0.9375 both give 93. *)
Theorem model_verdict_depends_on_arithmetic :
  predict_with_xgboost_float (A := binary32_arith) Urllib.urlparse true
    (Some (float32_booster (9 # 10))) zero_features "http://example.org"
  = Ok (Phishing, Computed (A := binary32_arith) (SpecFloat.S754_finite false 11796480 (-17)), 90)
  /\ predict_with_xgboost_float (A := binary64_arith) Urllib.urlparse true
       (Some (widened_float32_booster (9 # 10))) zero_features "http://example.org"
     = Ok (Phishing, Computed (A := binary64_arith) (SpecFloat.S754_finite false 6333186808217600 (-46)), 89)
  /\ predict_with_xgboost_float (A := binary32_arith) Urllib.urlparse true
       (Some (float32_booster (3 # 10))) zero_features "http://example.org"
     = Ok (Safe, Computed (A := binary32_arith) (SpecFloat.S754_finite false 9175040 (-17)), 30)
  /\ predict_with_xgboost_float (A := binary64_arith) Urllib.urlparse true
       (Some (widened_float32_booster (3 # 10))) zero_features "http://example.org"
     = Ok (Safe, Computed (A := binary64_arith) (SpecFloat.S754_finite false 8373880414535680 (-47)), 30)
  /\ predict_with_xgboost_float (A := binary32_arith) Urllib.urlparse true
       (Some (float32_booster (15 # 16))) zero_features "http://example.org"
     = Ok (Phishing, Computed (A := binary32_arith) (SpecFloat.S754_finite false 12288000 (-17)), 93)
  /\ predict_with_xgboost_float (A := binary64_arith) Urllib.urlparse true
       (Some (widened_float32_booster (15 # 16))) zero_features "http://example.org"
     = Ok (Phishing, Computed (A := binary64_arith) (SpecFloat.S754_finite false 6597069766656000 (-46)), 93)
  /\ IEEE.value (SpecFloat.S754_finite false 11796480 (-17))
     = Some (11796480 # 131072)
  /\ (11796480 # 131072 == 90)%Q
  /\ IEEE.value (SpecFloat.S754_finite false 9175040 (-17))
     = Some (9175040 # 131072)
  /\ (9175040 # 131072 == 70)%Q.
Proof.
  assert (Ht : is_trusted_domain Urllib.urlparse "http://example.org"
               = Ok (false, "Not in trusted lists"))
    by (vm_compute; reflexivity).
  assert (Hrow : mapM (getitem zero_features) feature_names
                 = Ok (repeat (PyNum.float 0) 5)) by reflexivity.
  repeat (split;
          [eapply (predict_with_xgboost_float_run Urllib.urlparse true);
           [reflexivity | exact Ht | exact Hrow | reflexivity
           | vm_compute; reflexivity] |]).
  split; [reflexivity |]. split; [reflexivity |]. split; reflexivity.
Qed.

(** X20. What [test_educational_domains] computes on the rule path: all
    fourteen URLs of its list come out Safe.  The first twelve are trusted
    (confidence 98, risk score 2); the two listed under "should still be
    caught" are not trusted and score 25, far below the threshold. *)
Theorem test_educational_domains_on_rule_path (xgboost_installed : bool) :
  mapM (test_row Urllib.urlparse xgboost_installed rule_based) test_urls
  = Ok (List.app (List.repeat (Safe, 98%Q, 2, true) 12)
                 (List.repeat (Safe, 85%Q, 25, false) 2)).
Proof. vm_compute. reflexivity. Qed.

(** ** The further properties at concrete inputs *)


Lemma xgboost_failure_falls_back_to_rules_witness :
  is_trusted_domain Urllib.urlparse "http://example.org"
    = Ok (false, "Not in trusted lists")
  /\ predict_with_xgboost Urllib.urlparse true
       (with_model (fun _ => Raise InferenceError)) zero_features "http://example.org"
     = predict_with_rules Urllib.urlparse zero_features "http://example.org".
Proof.
  assert (Ht : is_trusted_domain Urllib.urlparse "http://example.org"
               = Ok (false, "Not in trusted lists"))
    by (vm_compute; reflexivity).
  split; [exact Ht |].
  apply xgboost_failure_falls_back_to_rules. right. split; [eauto |].
  right. exists (List.repeat (PyNum.float 0) 5). split; reflexivity.
Defined.


Lemma listed_domain_and_subdomains_trusted_witness :
  Urllib.urlparse "https://docs.github.com/en" = Ok (mkParseResult "https" "docs.github.com")
  /\ In "github.com" (List.app TRUSTED_DOMAINS MALAYSIAN_EDU_DOMAINS)
  /\ normalize_domain "docs.github.com" = "docs" +:+ "." +:+ "github.com"
  /\ exists reason,
       is_trusted_domain Urllib.urlparse "https://docs.github.com/en" = Ok (true, reason).
Proof.
  assert (Hp : Urllib.urlparse "https://docs.github.com/en"
               = Ok (mkParseResult "https" "docs.github.com")) by reflexivity.
  assert (Hin : In "github.com" (List.app TRUSTED_DOMAINS MALAYSIAN_EDU_DOMAINS)).
  { unfold TRUSTED_DOMAINS. do 8 right. left. reflexivity. }
  assert (Hn : normalize_domain "docs.github.com" = "docs" +:+ "." +:+ "github.com")
    by reflexivity.
  split; [exact Hp |]. split; [exact Hin |]. split; [exact Hn |].
  exact (listed_domain_and_subdomains_trusted Urllib.urlparse _ _ "github.com" "docs"
           Hp Hin (or_intror Hn)).
Defined.

Lemma suffix_checks_never_decide_witness :
  is_trusted_domain Urllib.urlparse "https://irs.gov"
    = Ok (true, "Educational/Government domain pattern: \.gov$")
  /\ "Educational/Government domain pattern: \.gov$" <> "Government domain".
Proof.
  assert (Ht : is_trusted_domain Urllib.urlparse "https://irs.gov"
               = Ok (true, "Educational/Government domain pattern: \.gov$"))
    by (vm_compute; reflexivity).
  split; [exact Ht |].
  apply (suffix_checks_never_decide Urllib.urlparse _ _ _ Ht).
Defined.

Lemma trust_ignores_port_and_case_witness :
  Urllib.urlparse "https://portal.example.edu/" = Ok (mkParseResult "https" "portal.example.edu")
  /\ Urllib.urlparse "https://portal.example.edu:8443/x"
     = Ok (mkParseResult "https" "portal.example.edu:8443")
  /\ is_trusted_domain Urllib.urlparse "https://portal.example.edu:8443/x"
     = is_trusted_domain Urllib.urlparse "https://portal.example.edu/".
Proof.
  assert (H : Urllib.urlparse "https://portal.example.edu/"
              = Ok (mkParseResult "https" "portal.example.edu")) by reflexivity.
  assert (H' : Urllib.urlparse "https://portal.example.edu:8443/x"
               = Ok (mkParseResult "https" "portal.example.edu:8443")) by reflexivity.
  split; [exact H |]. split; [exact H' |].
  apply (trust_ignores_port_and_case Urllib.urlparse _ _ _ _ "8443" H H').
  left. reflexivity.
Defined.

Lemma validate_url_result_witness :
  validate_url Urllib.urlparse "  example.com  " = Ok "http://example.com"
  /\ has_http_prefix "http://example.com" = true
  /\ strip "http://example.com" = "http://example.com".
Proof.
  assert (H : validate_url Urllib.urlparse "  example.com  " = Ok "http://example.com")
    by (vm_compute; reflexivity).
  split; [exact H |].
  destruct (validate_url_result Urllib.urlparse _ _ H) as (_ & Hp & Hs & _). auto.
Defined.

Lemma validate_url_idempotent_witness :
  validate_url Urllib.urlparse "  example.com  " = Ok "http://example.com"
  /\ validate_url Urllib.urlparse "http://example.com" = Ok "http://example.com".
Proof.
  assert (H : validate_url Urllib.urlparse "  example.com  " = Ok "http://example.com")
    by (vm_compute; reflexivity).
  split; [exact H |]. exact (validate_url_idempotent Urllib.urlparse _ _ H).
Defined.

Lemma validate_url_rejections_witness :
  strip "   " = ""
  /\ validate_url Urllib.urlparse "   " = Raise ValueError
  /\ raises (Urllib.urlparse (with_http_prefix (strip "[x"))) = true
  /\ validate_url Urllib.urlparse "[x" = Raise ValueError.
Proof.
  destruct (validate_url_rejections Urllib.urlparse "   ") as (_ & Hempty & _).
  destruct (validate_url_rejections Urllib.urlparse "[x") as (_ & _ & Hraise & _).
  split; [reflexivity |].
  split; [apply Hempty; reflexivity |].
  split; [reflexivity |].
  apply Hraise. reflexivity.
Defined.

Lemma old_extractor_against_present_witness :
  Urllib.urlparse "http://[" = Raise ValueError
  /\ extract_features_old Urllib.urlparse "http://[" = Raise ValueError
  /\ extract_features Urllib.urlparse "http://[" = Ok zero_features.
Proof.
  destruct (old_extractor_against_present Urllib.urlparse "http://[") as (Hfail & _).
  split; [reflexivity |].
  apply (Hfail ValueError). reflexivity.
Defined.

Lemma suspicious_tld_text_anywhere_witness :
  In ".ml" suspicious_tlds
  /\ exists score,
       rules_score ∅ ("https://example.com/index" +:+ ".ml" +:+ "x") = Ok score
       /\ 15 <= score.
Proof.
  assert (Hin : In ".ml" suspicious_tlds) by (right; left; reflexivity).
  split; [exact Hin |].
  apply (suspicious_tld_text_anywhere ∅ "https://example.com/index" "x" ".ml" Hin).
Defined.

Lemma rules_risk_monotone_in_counts_witness :
  (16 <= 21)%Q /\ (5 <= 7)%Q
  /\ exists verdict verdict',
       predict_with_rules Urllib.urlparse
         (<["Special_Chars" := 16%Q]> (<["Num_Subdomains" := 5%Q]> ∅))
         "http://example.org" = Ok verdict
       /\ predict_with_rules Urllib.urlparse
         (<["Special_Chars" := 21%Q]> (<["Num_Subdomains" := 7%Q]> ∅))
         "http://example.org" = Ok verdict'
       /\ risk_of verdict <= risk_of verdict'.
Proof.
  assert (Hs : (16 <= 21)%Q) by discriminate.
  assert (Hn : (5 <= 7)%Q) by discriminate.
  split; [exact Hs |]. split; [exact Hn |].
  exact (rules_risk_monotone_in_counts Urllib.urlparse ∅ "http://example.org"
           16 21 5 7 Hs Hn).
Defined.

Lemma https_penalty_only_at_zero_witness :
  ~ (1 == 0)%Q
  /\ exists score,
       rules_score (<["Has_HTTPS" := 1%Q]> ∅) "http://example.org" = Ok score
       /\ rules_score (<["Has_HTTPS" := PyNum.float 0]> ∅) "http://example.org"
          = Ok (score + 20).
Proof.
  assert (Hh : ~ (1 == 0)%Q) by discriminate.
  split; [exact Hh |].
  exact (https_penalty_only_at_zero ∅ "http://example.org" 1 Hh).
Defined.

Lemma validated_url_https_feature_witness :
  validate_url Urllib.urlparse "HTTPS://Bank.com" = Ok "http://HTTPS://Bank.com"
  /\ is_trusted_domain Urllib.urlparse "http://HTTPS://Bank.com"
     = Ok (false, "Not in trusted lists")
  /\ exists features verdict,
       extract_features Urllib.urlparse "http://HTTPS://Bank.com" = Ok features
       /\ features !! "Has_HTTPS" = Some (PyNum.float 0)
       /\ predict_with_rules Urllib.urlparse features "http://HTTPS://Bank.com"
          = Ok verdict
       /\ 20 <= risk_of verdict <= 100.
Proof.
  assert (H : validate_url Urllib.urlparse "HTTPS://Bank.com" = Ok "http://HTTPS://Bank.com")
    by (vm_compute; reflexivity).
  assert (Ht : is_trusted_domain Urllib.urlparse "http://HTTPS://Bank.com"
               = Ok (false, "Not in trusted lists"))
    by (vm_compute; reflexivity).
  split; [exact H |]. split; [exact Ht |].
  destruct (validated_url_https_feature _ _ H) as (features & Hf & _ & Hh & Hrest).
  destruct (Hrest eq_refl) as (_ & Hrisk & _).
  destruct (Hrisk _ Ht) as (verdict & Hv & Hr).
  exists features, verdict. split; [exact Hf |]. split; [exact Hh |].
  split; [exact Hv | exact Hr].
Defined.

Lemma domain_containing_ac_is_trusted_witness :
  Urllib.urlparse "https://login.ac.example.com/verify"
    = Ok (mkParseResult "https" "login.ac.example.com")
  /\ PyStr.contains (normalize_domain "login.ac.example.com") ".ac." = true
  /\ exists reason,
       is_trusted_domain Urllib.urlparse "https://login.ac.example.com/verify"
       = Ok (true, reason).
Proof.
  assert (Hp : Urllib.urlparse "https://login.ac.example.com/verify"
               = Ok (mkParseResult "https" "login.ac.example.com")) by reflexivity.
  assert (Hac : PyStr.contains (normalize_domain "login.ac.example.com") ".ac." = true)
    by reflexivity.
  split; [exact Hp |]. split; [exact Hac |].
  exact (domain_containing_ac_is_trusted Urllib.urlparse _ _ Hp Hac).
Defined.

Lemma educational_sounding_host_without_userinfo_witness :
  Urllib.urlparse "https://www.MySchool.org:8080/home"
    = Ok (mkParseResult "https" "www.MySchool.org:8080")
  /\ PyStr.has_char "@" "www.MySchool.org:8080" = false
  /\ spec_normalized_host "www.MySchool.org:8080" = "myschool.org"
  /\ is_trusted_domain Urllib.urlparse "https://www.MySchool.org:8080/home"
       = Ok (true, "Educational-sounding domain").
Proof.
  assert (Hparse : Urllib.urlparse "https://www.MySchool.org:8080/home"
                   = Ok (mkParseResult "https" "www.MySchool.org:8080"))
    by reflexivity.
  split; [exact Hparse |]. split; [reflexivity |]. split; [reflexivity |].
  destruct (educational_sounding_host_without_userinfo Urllib.urlparse _ _ Hparse
              eq_refl eq_refl eq_refl) as (reason & Hr).
  rewrite Hr. vm_compute in Hr. injection Hr as <-. reflexivity.
Defined.

Lemma nan_probability_falls_back_to_rules_witness :
  is_trusted_domain Urllib.urlparse "http://example.org"
    = Ok (false, "Not in trusted lists")
  /\ fp_int (A := binary32_arith) (fp_mul (A := binary32_arith) SpecFloat.S754_nan 100)
     = Raise ValueError
  /\ predict_with_xgboost_float (A := binary32_arith) Urllib.urlparse true
       (Some (fun _ => Ok SpecFloat.S754_nan)) zero_features "http://example.org"
     = Ok (Safe, Exact 90%Q, 20).
Proof.
  assert (Ht : is_trusted_domain Urllib.urlparse "http://example.org"
               = Ok (false, "Not in trusted lists"))
    by (vm_compute; reflexivity).
  assert (Hint : fp_int (A := binary32_arith)
                   (fp_mul (A := binary32_arith) SpecFloat.S754_nan 100)
                 = Raise ValueError) by reflexivity.
  split; [exact Ht |]. split; [exact Hint |].
  rewrite (nan_probability_falls_back_to_rules Urllib.urlparse true binary32_arith
             (Some (fun _ => Ok SpecFloat.S754_nan)) zero_features
             "http://example.org" "Not in trusted lists"
             (repeat (PyNum.float 0) 5) SpecFloat.S754_nan ValueError
             Ht eq_refl eq_refl Hint).
  assert (Hrules : predict_with_rules Urllib.urlparse zero_features "http://example.org"
                   = Ok (Safe, 90%Q, 20)) by (vm_compute; reflexivity).
  rewrite Hrules. reflexivity.
Defined.

Lemma educational_sounding_domain_is_trusted_witness :
  Urllib.urlparse "http://school:pw@evil.tk/"
    = Ok (mkParseResult "http" "school:pw@evil.tk")
  /\ normalize_domain "school:pw@evil.tk" = "school"
  /\ spec_normalized_host "school:pw@evil.tk" = "evil.tk"
  /\ is_trusted_domain Urllib.urlparse "http://school:pw@evil.tk/"
       = Ok (true, "Educational-sounding domain").
Proof.
  assert (Hparse : Urllib.urlparse "http://school:pw@evil.tk/"
                   = Ok (mkParseResult "http" "school:pw@evil.tk"))
    by reflexivity.
  split; [exact Hparse |]. split; [reflexivity |]. split; [reflexivity |].
  assert (Hedu : PyStr.contains "school" "university" = true
                 \/ PyStr.contains "school" "univ" = true
                 \/ PyStr.contains "school" "college" = true
                 \/ PyStr.contains "school" "school" = true
                 \/ PyStr.contains "school" "academy" = true)
    by (right; right; right; left; reflexivity).
  destruct (educational_sounding_domain_is_trusted Urllib.urlparse _ _ Hparse
              Hedu eq_refl eq_refl eq_refl eq_refl) as (reason & Hr).
  rewrite Hr. vm_compute in Hr. injection Hr as <-. reflexivity.
Defined.
